(** * MetaCleaner: the file-processing request pipeline of [main.py]

    A shallow embedding of the two request handlers [show] and [clean], of
    the helpers [get_meta], [clean_meta], [__check_file] and
    [cache_delete_file], and of the part of the Python runtime they touch
    (the filesystem, exceptions with [try]/[except]/[finally], [io.BytesIO],
    [uuid.uuid4], [os.path]).  The metadata engine (libmat2) is external to
    the repository and enters as a parameter. *)

From Stdlib Require Import ZArith Lia String Ascii List.
From stdpp Require Import base strings gmap list sorting pretty.

Local Open Scope string_scope.

(** ** Python values *)

Abbreviation bytes := (list Byte.byte).

Inductive os_error :=
| FileNotFoundError
| IsADirectoryError
| NotADirectoryError
| PermissionError.

(** The exception classes the handlers distinguish.  [CancelledError] stands
    for the exceptions that derive from [BaseException] only, which
    [except Exception] does not catch. *)
Inductive exn :=
| HTTPException (status_code : Z) (detail : string)
| ValueError (msg : string)
| RuntimeError (msg : string)
| OSError (kind : os_error) (filename : string)
| OtherException (msg : string)
| CancelledError.

Definition is_Exception (e : exn) : bool :=
  match e with
  | CancelledError => false
  | _ => true
  end.

Definition strerror (k : os_error) : string :=
  match k with
  | FileNotFoundError => "[Errno 2] No such file or directory"
  | IsADirectoryError => "[Errno 21] Is a directory"
  | NotADirectoryError => "[Errno 20] Not a directory"
  | PermissionError => "[Errno 13] Permission denied"
  end.

(** [str(e)] *)
Definition exn_str (e : exn) : string :=
  match e with
  | HTTPException s d => d
  | ValueError m => m
  | RuntimeError m => m
  | OSError k f => strerror k ++ ": '" ++ f ++ "'"
  | OtherException m => m
  | CancelledError => ""
  end.

(** [UnknownMemberPolicy] of libmat2 *)
Inductive UnknownMemberPolicy := ABORT | OMIT | KEEP.

(** A parser object of the engine: its class, the file it was built for, the
    path its [remove_all] writes to, and the three attributes the pipeline
    assigns before it calls a method. *)
Record parser := Parser {
  parser_class : string;
  parser_filename : string;
  output_filename : string;
  unknown_member_policy : UnknownMemberPolicy;
  lightweight_cleaning : bool;
  sandbox : bool
}.

Definition set_unknown_member_policy (v : UnknownMemberPolicy) (p : parser) : parser :=
  Parser (parser_class p) (parser_filename p) (output_filename p)
         v (lightweight_cleaning p) (sandbox p).

Definition set_lightweight_cleaning (v : bool) (p : parser) : parser :=
  Parser (parser_class p) (parser_filename p) (output_filename p)
         (unknown_member_policy p) v (sandbox p).

Definition set_sandbox (v : bool) (p : parser) : parser :=
  Parser (parser_class p) (parser_filename p) (output_filename p)
         (unknown_member_policy p) (lightweight_cleaning p) v.

Inductive meta_value := MStr (s : string) | MInt (n : Z).

Abbreviation metadata := (list (string * meta_value)).

(** ** io.BytesIO *)

Record BytesIO := mkBytesIO { buf : bytes; pos : nat }.

Definition BytesIO_new : BytesIO := mkBytesIO [] 0.

Definition BytesIO_write (b : BytesIO) (data : bytes) : BytesIO :=
  mkBytesIO
    (take (pos b) (buf b) ++ replicate (pos b - length (buf b)) Byte.x00
       ++ data ++ drop (pos b + length data) (buf b))
    (pos b + length data).

Definition BytesIO_seek (b : BytesIO) (offset : nat) : BytesIO :=
  mkBytesIO (buf b) offset.

(** What [read()] returns: everything from the current position on. *)
Definition BytesIO_read (b : BytesIO) : bytes := drop (pos b) (buf b).

(** ** Responses and requests *)

Inductive response :=
| JSONResponse (content : metadata) (media_type : string)
| StreamingResponse (body : BytesIO) (media_type : string)
                    (headers : list (string * string)).

Record UploadFile := mkUploadFile { upload_filename : string; upload_body : bytes }.

(** ** The filesystem

    Keys are absolute paths.  A node carries its permission bits
    ([st_mode & 0o7777]).  Symbolic links and the search and write
    permissions of directories are not modelled: the service is taken to own
    its working tree and to run as a user other than root, so [os.access]
    looks at the owner bits. *)
Inductive node :=
| File (data : bytes) (st_mode : Z)
| Dir (st_mode : Z).

Definition node_mode (n : node) : Z :=
  match n with
  | File _ m => m
  | Dir m => m
  end.

Definition node_chmod (m : Z) (n : node) : node :=
  match n with
  | File d _ => File d m
  | Dir _ => Dir m
  end.

Definition R_OK : Z := 4.
Definition W_OK : Z := 2.

Definition S_IMODE (m : Z) : Z := Z.land m 4095.

(** The owner's [rwx] bits of a mode cover the requested access bits. *)
Definition mode_allows (st_mode mode : Z) : bool :=
  Z.eqb (Z.land (Z.land (Z.shiftr st_mode 6) 7) mode) mode.

(** ** Where code runs, and what the engine is asked to do *)

Inductive ctx := RequestThread | WorkerProcess.

Inductive event :=
| EvPrint (line : string)
| EvGetParser (c : ctx) (filename : string)
| EvGetMeta (c : ctx) (p : parser)
| EvRemoveAll (c : ctx) (p : parser).

Definition event_ctx (e : event) : option ctx :=
  match e with
  | EvPrint _ => None
  | EvGetParser c _ => Some c
  | EvGetMeta c _ => Some c
  | EvRemoveAll c _ => Some c
  end.

Record world := World {
  fs : gmap string node;
  cwd : string;
  umask : Z;
  running_in : ctx;
  trace : list event
}.

Definition set_fs (f : gmap string node) (w : world) : world :=
  World f (cwd w) (umask w) (running_in w) (trace w).

Definition set_running_in (c : ctx) (w : world) : world :=
  World (fs w) (cwd w) (umask w) c (trace w).

Definition log (e : event) (w : world) : world :=
  World (fs w) (cwd w) (umask w) (running_in w) (trace w ++ [e]).

(** ** Computations: state and exceptions *)

Inductive result (A : Type) :=
| Ok (a : A)
| Raise (e : exn).

Arguments Ok {A} a.
Arguments Raise {A} e.

Definition M (A : Type) : Type := world -> result A * world.

Definition ret {A} (a : A) : M A := fun w => (Ok a, w).

Definition raise {A} (e : exn) : M A := fun w => (Raise e, w).

Definition bind {A B} (m : M A) (k : A -> M B) : M B :=
  fun w =>
    match m w with
    | (Ok a, w') => k a w'
    | (Raise e, w') => (Raise e, w')
    end.

(** [try: body  except ...: handler]; a handler re-raises what it does not
    match. *)
Definition try_except {A} (body : M A) (handler : exn -> M A) : M A :=
  fun w =>
    match body w with
    | (Ok a, w') => (Ok a, w')
    | (Raise e, w') => handler e w'
    end.

(** [try: body  finally: fin]: [fin] runs on every exit of [body]; an
    exception of [fin] replaces the outcome of [body]. *)
Definition try_finally {A} (body : M A) (fin : M unit) : M A :=
  fun w =>
    let (r, w') := body w in
    match fin w' with
    | (Ok _, w'') => (r, w'')
    | (Raise e, w'') => (Raise e, w'')
    end.

(** [await loop.run_in_executor(pool, f, ...)]: [f] runs in a process of the
    pool, the caller resumes where it was. *)
Definition run_in_executor {A} (f : M A) : M A :=
  fun w =>
    let (r, w') := f (set_running_in WorkerProcess w) in
    (r, set_running_in (running_in w) w').

Declare Scope py_scope.
Delimit Scope py_scope with py.
Notation "x <- m ;; k" := (bind m (fun x => k))
  (at level 100, m at next level, right associativity) : py_scope.
Notation "m ;;; k" := (bind m (fun _ => k))
  (at level 100, right associativity) : py_scope.
Local Open Scope py_scope.

Definition print (s : string) : M unit := fun w => (Ok tt, log (EvPrint s) w).

(** ** uuid.uuid4 and str(UUID)

    [uuid4] draws 16 random bytes, here the integer [r], and stamps the
    variant and version bits; [str] prints the 32 hexadecimal digits in
    groups of 8-4-4-4-12. *)

Definition hex_digit (d : Z) : ascii :=
  if (d <? 10)%Z then ascii_of_N (Z.to_N (48 + d)) else ascii_of_N (Z.to_N (87 + d)).

(** The [n] lowest hexadecimal digits of [v], most significant first. *)
Fixpoint hex (n : nat) (v : Z) : string :=
  match n with
  | O => ""
  | S k => String (hex_digit (Z.land (Z.shiftr v (4 * Z.of_nat k)) 15)) (hex k v)
  end.

Definition uuid4_int (r : Z) : Z :=
  let i := Z.land r (Z.ones 128) in
  let i := Z.ldiff i (Z.shiftl 49152 48) in
  let i := Z.lor i (Z.shiftl 32768 48) in
  let i := Z.ldiff i (Z.shiftl 61440 64) in
  Z.lor i (Z.shiftl 4 76).

Definition uuid_str (i : Z) : string :=
  hex 8 (Z.shiftr i 96) ++ "-" ++ hex 4 (Z.shiftr i 80) ++ "-"
    ++ hex 4 (Z.shiftr i 64) ++ "-" ++ hex 4 (Z.shiftr i 48) ++ "-" ++ hex 12 i.

(** ** os.path *)

Definition is_slash (c : ascii) : bool := Ascii.eqb c "/"%char.
Definition is_nul (c : ascii) : bool := Ascii.eqb c Ascii.zero.
Definition is_dot (c : ascii) : bool := Ascii.eqb c "."%char.

Fixpoint no_slash (s : string) : bool :=
  match s with
  | EmptyString => true
  | String c r => negb (is_slash c) && no_slash r
  end.

Definition isabs (p : string) : bool :=
  match p with
  | String c _ => is_slash c
  | EmptyString => false
  end.

Fixpoint ends_with_slash (p : string) : bool :=
  match p with
  | EmptyString => false
  | String c EmptyString => is_slash c
  | String _ r => ends_with_slash r
  end.

(** [os.path.join(a, p)] for two components *)
Definition path_join (a p : string) : string :=
  if isabs p then p
  else if (String.length a =? 0)%nat || ends_with_slash a then a ++ p
  else a ++ "/" ++ p.

(** The split of [posixpath.split] before the head is stripped: the part up
    to and including the last slash, and the part after it. *)
Fixpoint split_at_last_slash (p : string) : string * string :=
  match p with
  | EmptyString => (EmptyString, EmptyString)
  | String c r =>
      let (h, t) := split_at_last_slash r in
      match h with
      | EmptyString =>
          if is_slash c then (String c EmptyString, r) else (EmptyString, String c r)
      | String _ _ => (String c h, t)
      end
  end.

Fixpoint rstrip_slash (s : string) : string :=
  match s with
  | EmptyString => EmptyString
  | String c r =>
      match rstrip_slash r with
      | EmptyString => if is_slash c then EmptyString else String c EmptyString
      | String _ _ as r' => String c r'
      end
  end.

(** [head.rstrip('/')] unless [head] is all slashes *)
Definition os_path_dirname (p : string) : string :=
  let head := fst (split_at_last_slash p) in
  match rstrip_slash head with
  | EmptyString => head
  | String _ _ as h => h
  end.

Definition os_path_basename (p : string) : string := snd (split_at_last_slash p).

Fixpoint rfind (c : ascii) (s : string) : option nat :=
  match s with
  | EmptyString => None
  | String a r =>
      match rfind c r with
      | Some i => Some (S i)
      | None => if Ascii.eqb a c then Some 0 else None
      end
  end.

Fixpoint string_exists (f : ascii -> bool) (s : string) : bool :=
  match s with
  | EmptyString => false
  | String c r => f c || string_exists f r
  end.

(** [os.path.splitext]: the extension starts at the last dot of the last
    component, unless only dots precede it there. *)
Definition os_path_splitext (p : string) : string * string :=
  match rfind "."%char p with
  | None => (p, "")
  | Some dotIndex =>
      let filenameIndex :=
        match rfind "/"%char p with
        | Some sepIndex => S sepIndex
        | None => 0
        end in
      if (filenameIndex <=? dotIndex)%nat
           && string_exists (fun c => negb (is_dot c))
                (substring filenameIndex (dotIndex - filenameIndex) p)
      then (substring 0 dotIndex p, substring dotIndex (String.length p - dotIndex) p)
      else (p, "")
  end.

(** [os.path.abspath], on paths that are already normal (no [.], [..] or
    doubled slash components): the path joined to the working directory. *)
Definition os_path_abspath (p : string) : M string :=
  fun w => (Ok (path_join (cwd w) p), w).

(** ** Filesystem calls

    Every call resolves its path against the working directory first. *)

Definition lookup_path (w : world) (p : string) : option node :=
  fs w !! path_join (cwd w) p.

Definition path_exists (w : world) (p : string) : bool :=
  match lookup_path w p with
  | Some _ => true
  | None => false
  end.

Definition path_isfile (w : world) (p : string) : bool :=
  match lookup_path w p with
  | Some (File _ _) => true
  | _ => false
  end.

Definition path_access (w : world) (p : string) (mode : Z) : bool :=
  match lookup_path w p with
  | Some n => mode_allows (node_mode n) mode
  | None => false
  end.

Definition os_path_exists (p : string) : M bool := fun w => (Ok (path_exists w p), w).

Definition os_path_isfile (p : string) : M bool := fun w => (Ok (path_isfile w p), w).

Definition os_access (p : string) (mode : Z) : M bool :=
  fun w => (Ok (path_access w p mode), w).

Definition os_remove (p : string) : M unit :=
  fun w =>
    match lookup_path w p with
    | Some (File _ _) => (Ok tt, set_fs (delete (path_join (cwd w) p) (fs w)) w)
    | Some (Dir _) => (Raise (OSError IsADirectoryError p), w)
    | None => (Raise (OSError FileNotFoundError p), w)
    end.

(** [os.rename] of a regular file.  Renaming a directory would move its
    whole subtree; no path of the pipeline does that, and the model reports
    it as a failed call. *)
Definition os_rename (src dst : string) : M unit :=
  fun w =>
    match lookup_path w src with
    | None => (Raise (OSError FileNotFoundError src), w)
    | Some (Dir _) => (Raise (OSError NotADirectoryError src), w)
    | Some (File d m) =>
        match lookup_path w dst with
        | Some (Dir _) => (Raise (OSError IsADirectoryError dst), w)
        | _ =>
            (Ok tt,
             set_fs (<[path_join (cwd w) dst := File d m]>
                       (delete (path_join (cwd w) src) (fs w))) w)
        end
    end.

(** [shutil.copymode(src, dst)]: [os.chmod(dst, stat.S_IMODE(os.stat(src).st_mode))] *)
Definition shutil_copymode (src dst : string) : M unit :=
  fun w =>
    match lookup_path w src with
    | None => (Raise (OSError FileNotFoundError src), w)
    | Some s =>
        match lookup_path w dst with
        | None => (Raise (OSError FileNotFoundError dst), w)
        | Some d =>
            (Ok tt,
             set_fs (<[path_join (cwd w) dst := node_chmod (S_IMODE (node_mode s)) d]> (fs w)) w)
        end
    end.

(** [async with aiof.open(p, "wb") as out: await out.write(data); await out.flush()].
    [open] refuses a name that holds a NUL character with a [ValueError]
    before it looks at the filesystem. *)
Definition aiof_write (p : string) (data : bytes) : M unit :=
  fun w =>
    let q := path_join (cwd w) p in
    if string_exists is_nul p then (Raise (ValueError "embedded null byte"), w)
    else
    match fs w !! q with
    | Some (Dir _) => (Raise (OSError IsADirectoryError p), w)
    | Some (File _ m) =>
        if mode_allows m W_OK then (Ok tt, set_fs (<[q := File data m]> (fs w)) w)
        else (Raise (OSError PermissionError p), w)
    | None =>
        match fs w !! os_path_dirname q with
        | Some (Dir _) =>
            (Ok tt, set_fs (<[q := File data (Z.ldiff 438 (umask w))]> (fs w)) w)
        | Some (File _ _) => (Raise (OSError NotADirectoryError p), w)
        | None => (Raise (OSError FileNotFoundError p), w)
        end
    end.

(** [async with aiof.open(p, 'rb') as fo: await fo.read()] *)
Definition aiof_read (p : string) : M bytes :=
  fun w =>
    match lookup_path w p with
    | None => (Raise (OSError FileNotFoundError p), w)
    | Some (Dir _) => (Raise (OSError IsADirectoryError p), w)
    | Some (File d m) =>
        if mode_allows m R_OK then (Ok d, w) else (Raise (OSError PermissionError p), w)
    end.

(** ** Response headers

    A [str] is held as its UTF-8 bytes.  The framework encodes the name and
    the value of every header as latin-1 when a response object is built,
    which fails on a character above U+00FF with a [UnicodeEncodeError], a
    subclass of [ValueError]. *)

Definition byte_value (c : ascii) : Z := Z.of_nat (nat_of_ascii c).

(** The code points of a well-formed UTF-8 string. *)
Fixpoint utf8_decode (s : string) : list Z :=
  match s with
  | EmptyString => []
  | String b0 r =>
      let n0 := byte_value b0 in
      if (n0 <? 192)%Z then n0 :: utf8_decode r
      else
        match r with
        | EmptyString => [n0]
        | String b1 r1 =>
            let n1 := (byte_value b1 - 128)%Z in
            if (n0 <? 224)%Z then ((n0 - 192) * 64 + n1)%Z :: utf8_decode r1
            else
              match r1 with
              | EmptyString => [n0]
              | String b2 r2 =>
                  let n2 := (byte_value b2 - 128)%Z in
                  if (n0 <? 240)%Z then
                    ((n0 - 224) * 4096 + n1 * 64 + n2)%Z :: utf8_decode r2
                  else
                    match r2 with
                    | EmptyString => [n0]
                    | String b3 r3 =>
                        ((n0 - 240) * 262144 + n1 * 4096 + n2 * 64
                           + (byte_value b3 - 128))%Z :: utf8_decode r3
                    end
              end
        end
  end.

(** How many characters at the head of the list are above U+00FF. *)
Fixpoint high_run (cps : list Z) : nat :=
  match cps with
  | [] => 0
  | cp :: r => if (255 <? cp)%Z then S (high_run r) else 0
  end.

(** The first run of characters above U+00FF: where it starts, its first
    character, and where it ends. *)
Fixpoint first_high (start : nat) (cps : list Z) : option (nat * Z * nat) :=
  match cps with
  | [] => None
  | cp :: r =>
      if (255 <? cp)%Z then Some (start, cp, S start + high_run r)
      else first_high (S start) r
  end.

(** [str(e)] of the [UnicodeEncodeError] that [s.encode("latin-1")] raises,
    if it raises. *)
Definition latin1_error (s : string) : option string :=
  match first_high 0 (utf8_decode s) with
  | None => None
  | Some (start, bad, stop) =>
      Some ("'latin-1' codec can't encode "
              ++ (if (stop =? S start)%nat then
                    "character '"
                      ++ (if (bad <=? 65535)%Z then "\u" ++ hex 4 bad
                          else "\U" ++ hex 8 bad)
                      ++ "' in position " ++ pretty start
                  else
                    "characters in position " ++ pretty start ++ "-"
                      ++ pretty (stop - 1))
              ++ ": ordinal not in range(256)")
  end.

Fixpoint headers_error (headers : list (string * string)) : option string :=
  match headers with
  | [] => None
  | (k, v) :: r =>
      match latin1_error k with
      | Some msg => Some msg
      | None =>
          match latin1_error v with
          | Some msg => Some msg
          | None => headers_error r
          end
      end
  end.

(** [StreamingResponse(content, media_type=..., headers=...)] *)
Definition StreamingResponse_init (content : BytesIO) (media_type : string)
    (headers : list (string * string)) : M response :=
  match headers_error headers with
  | Some msg => raise (ValueError msg)
  | None => ret (StreamingResponse content media_type headers)
  end.

(** ** The metadata engine (libmat2)

    [parser_factory.get_parser(filename)] inspects the file and returns a
    parser (or [None]) and the detected mime type, or raises; the two parser
    methods may read and write the filesystem and may raise. *)
Record engine := Engine {
  engine_get_parser :
    gmap string node -> string -> result (option parser * option string);
  engine_get_meta :
    parser -> gmap string node -> result metadata * gmap string node;
  engine_remove_all :
    parser -> gmap string node -> result bool * gmap string node
}.

(** The double quote character *)
Definition dquote : ascii := Eval cbv in ascii_of_nat 34.

(** [str(x)] for an optional string, as the format operations print it *)
Definition str_of_optional (x : option string) : string :=
  match x with
  | Some s => s
  | None => "None"
  end.

(** [sep.join(l)] *)
Fixpoint str_join (sep : string) (l : list string) : string :=
  match l with
  | [] => ""
  | [s] => s
  | s :: r => s ++ sep ++ str_join sep r
  end.

(** What [l += s] appends to a list [l] when [s] is a string: its
    characters, one by one. *)
Fixpoint chars (s : string) : list string :=
  match s with
  | EmptyString => []
  | String c r => String c EmptyString :: chars r
  end.

Fixpoint string_filter (f : ascii -> bool) (s : string) : string :=
  match s with
  | EmptyString => EmptyString
  | String c r => if f c then String c (string_filter f r) else string_filter f r
  end.

Section Service.

(** [unicodedata.category(ch).startswith('C')] *)
Variable category_is_C : ascii -> bool.

Variable libmat2 : engine.

Definition __print_without_chars (s : string) : M unit :=
  print (string_filter (fun ch => negb (category_is_C ch)) s).

Definition parser_factory_get_parser (filename : string)
  : M (option parser * option string) :=
  fun w =>
    (engine_get_parser libmat2 (fs w) filename,
     log (EvGetParser (running_in w) filename) w).

(** [p.get_meta()] *)
Definition p_get_meta (p : parser) : M metadata :=
  fun w =>
    let (r, fs') := engine_get_meta libmat2 p (fs w) in
    (r, set_fs fs' (log (EvGetMeta (running_in w) p) w)).

(** [p.remove_all()] *)
Definition p_remove_all (p : parser) : M bool :=
  fun w =>
    let (r, fs') := engine_remove_all libmat2 p (fs w) in
    (r, set_fs fs' (log (EvRemoveAll (running_in w) p) w)).

Definition __check_file (filename : string) (mode : Z) : M bool :=
  e <- os_path_exists filename ;;
  if negb e then
    __print_without_chars ("[-] " ++ filename ++ " doesn't exist.") ;;;
    ret false
  else
    f <- os_path_isfile filename ;;
    if negb f then
      __print_without_chars ("[-] " ++ filename ++ " is not a regular file.") ;;;
      ret false
    else
      a <- os_access filename mode ;;
      if negb a then
        let mode_str : list string := [] in
        let mode_str :=
          if negb (Z.land mode R_OK =? 0)%Z then (mode_str ++ chars "readable")%list
          else mode_str in
        let mode_str :=
          if negb (Z.land mode W_OK =? 0)%Z then (mode_str ++ chars "writeable")%list
          else mode_str in
        __print_without_chars
          ("[-] " ++ filename ++ " is not " ++ str_join "nor " mode_str ++ ".") ;;;
        ret false
      else ret true.

Definition get_meta (filename : string) (sandbox : bool) : M metadata :=
  ok <- __check_file filename R_OK ;;
  if negb ok then raise (HTTPException 500 "File error")
  else
    pm <- try_except (parser_factory_get_parser filename)
            (fun e =>
               match e with
               | ValueError msg =>
                   __print_without_chars
                     ("[-] something went wrong when processing " ++ filename
                        ++ ": " ++ msg) ;;;
                   raise (HTTPException 400
                            ("something went wrong during processing: " ++ msg))
               | _ => raise e
               end) ;;
    match pm with
    | (None, mtype) =>
        __print_without_chars
          ("[-] " ++ filename ++ "'s format (" ++ str_of_optional mtype
             ++ ") is not supported") ;;;
        raise (HTTPException 400
                 ("format (" ++ str_of_optional mtype ++ ") is not supported"))
    | (Some p, _) =>
        let p := set_sandbox sandbox p in
        p_get_meta p
    end.

(** The name under which a request stores its upload:
    [f'{uuid.uuid4()}{file.filename}'], [r] being the random draw. *)
Definition artifact_name (r : Z) (file : UploadFile) : string :=
  uuid_str (uuid4_int r) ++ upload_filename file.

(** [POST /show/] *)
Definition show (file : UploadFile) (sandbox : bool) (r : Z) : M response :=
  let filename := artifact_name r file in
  aiof_write filename (upload_body file) ;;;
  try_finally
    (try_except
       (a <- os_path_abspath filename ;;
        print a ;;;
        a <- os_path_abspath filename ;;
        metadata <- get_meta a sandbox ;;
        ret (JSONResponse metadata "text/plain"))
       (fun e =>
          match e with
          | HTTPException _ _ => raise e
          | _ =>
              if is_Exception e then
                __print_without_chars
                  ("[-] something went wrong when processing " ++ filename
                     ++ ": " ++ exn_str e) ;;;
                raise (HTTPException 500 "Metadata cannot be extracted")
              else raise e
          end))
    (os_remove filename).

Definition clean_meta (filename : string) (is_lightweight inplace sandbox : bool)
    (policy : UnknownMemberPolicy) : M bool :=
  let mode := if inplace then Z.lor R_OK W_OK else R_OK in
  ok <- __check_file filename mode ;;
  if negb ok then ret false
  else
    pm <- try_except (parser_factory_get_parser filename)
            (fun e =>
               match e with
               | ValueError msg =>
                   __print_without_chars
                     ("[-] something went wrong when cleaning " ++ filename
                        ++ ": " ++ msg) ;;;
                   raise (ValueError ("something went wrong during cleaning: " ++ msg))
               | _ => raise e
               end) ;;
    match pm with
    | (None, mtype) =>
        __print_without_chars
          ("[-] " ++ filename ++ "'s format (" ++ str_of_optional mtype
             ++ ") is not supported") ;;;
        raise (ValueError ("format (" ++ str_of_optional mtype ++ ") is not supported"))
    | (Some p, _) =>
        let p := set_unknown_member_policy policy p in
        let p := set_lightweight_cleaning is_lightweight p in
        let p := set_sandbox sandbox p in
        try_except
          (ret_ <- p_remove_all p ;;
           (if ret_ then
              shutil_copymode filename (output_filename p) ;;;
              if inplace then os_rename (output_filename p) filename else ret tt
            else ret tt) ;;;
           ret ret_)
          (fun e =>
             match e with
             | RuntimeError msg =>
                 __print_without_chars
                   ("[-] " ++ filename ++ " can't be cleaned: " ++ msg) ;;;
                 raise (RuntimeError ("can't be cleaned: " ++ msg))
             | _ => raise e
             end)
    end.

(** The result is optional because the caller tests it against [None]. *)
Definition cache_delete_file (filename : string) : M (option BytesIO) :=
  let cached_file := BytesIO_new in
  a <- os_path_abspath filename ;;
  data <- aiof_read a ;;
  let cached_file := BytesIO_write cached_file data in
  let cached_file := BytesIO_seek cached_file 0 in
  a <- os_path_abspath filename ;;
  os_remove a ;;;
  ret (Some cached_file).

(** The [finally] clause of [clean] *)
Definition clean_finally (filename : string) : M unit :=
  a <- os_path_abspath filename ;;
  f <- os_path_isfile a ;;
  if f then
    a <- os_path_abspath filename ;;
    os_remove a
  else ret tt.

(** [POST /clean/].  The [try] statement either returns a response
    ([Some]) or falls through ([None]) to the final [raise]. *)
Definition clean (file : UploadFile) (lightweight : bool)
    (unknown_members : UnknownMemberPolicy) (sandbox : bool) (r : Z) : M response :=
  let filename := artifact_name r file in
  aiof_write filename (upload_body file) ;;;
  let (prefix, extension) := os_path_splitext (upload_filename file) in
  let policy := unknown_members in
  returned <-
    try_finally
      (try_except
         (a <- os_path_abspath filename ;;
          is_success <-
            run_in_executor (clean_meta a lightweight true sandbox policy) ;;
          if is_success then
            data <- cache_delete_file filename ;;
            match data with
            | Some d =>
                resp <- StreamingResponse_init d "application/octet-stream"
                          [("Content-Disposition",
                            "attachment; filename=" ++ String dquote
                              (prefix ++ "_metaclean" ++ extension
                                 ++ String dquote ""))] ;;
                ret (Some resp)
            | None => ret None
            end
          else ret None)
         (fun e =>
            match e with
            | ValueError msg => raise (HTTPException 400 msg)
            | RuntimeError msg => raise (HTTPException 400 msg)
            | HTTPException _ _ => raise e
            | _ => raise e
            end))
      (clean_finally filename) ;;
  match returned with
  | Some resp => ret resp
  | None => raise (HTTPException 400 "Failed to remove metadata")
  end.

End Service.

(** ** Vocabulary of the properties *)

(** The path exists, is a regular file and grants the requested access. *)
Definition accessible (w : world) (p : string) (mode : Z) : bool :=
  path_exists w p && path_isfile w p && path_access w p mode.

(** What a run appended to the trace. *)
Definition new_events (w w' : world) : list event :=
  drop (length (trace w)) (trace w').

(** What the client receives for the outcome of a handler: the status and
    detail of an [HTTPException], and the framework's plain 500 for any other
    exception that leaves the handler. *)
Definition client_status (r : result response) : Z :=
  match r with
  | Ok _ => 200
  | Raise (HTTPException s _) => s
  | Raise _ => 500
  end.

Definition client_detail (r : result response) : string :=
  match r with
  | Ok _ => EmptyString
  | Raise (HTTPException _ d) => d
  | Raise _ => "Internal Server Error"
  end.

(** [t in s] for strings *)
Fixpoint contains (s t : string) : bool :=
  String.prefix t s
  || match s with
     | EmptyString => false
     | String _ r => contains r t
     end.

(** A working directory as [os.getcwd] reports it: absolute, and without a
    trailing slash unless it is the root. *)
Definition wf_cwd (c : string) : bool :=
  isabs c && (negb (ends_with_slash c) || String.eqb c "/").

(** The configuration an engine call was made with. *)
Definition configured (policy : UnknownMemberPolicy) (lightweight sb : bool)
    (p : parser) : Prop :=
  unknown_member_policy p = policy /\ lightweight_cleaning p = lightweight
  /\ sandbox p = sb.

(** Every run of [m] relates the world it starts in to the one it ends in. *)
Definition respects {A} (R : world -> world -> Prop) (m : M A) : Prop :=
  forall w, R w (snd (m w)).

(** A run started in context [c] stays there, keeps the working directory,
    and appends to the trace only events that satisfy [P]. *)
Definition emits (c : ctx) (P : event -> Prop) (w w' : world) : Prop :=
  running_in w = c ->
  cwd w' = cwd w /\ running_in w' = c
  /\ exists evs, trace w' = (trace w ++ evs)%list /\ Forall P evs.

(** ** Sample engines and worlds *)

Definition no_C (c : ascii) : bool := (nat_of_ascii c <? 32)%nat.

Definition pdf_parser (filename : string) : parser :=
  Parser "PDFParser" filename (filename ++ ".cleaned") ABORT false true.

Definition pdf_meta : metadata := [("creator", MStr "creator"); ("mod-date", MInt 1704067200)].

(** An engine that knows files whose content starts with [%]: it reports
    two fields for them and cleans them by writing the same bytes to the
    output path. *)
Definition pdf_engine : engine :=
  Engine
    (fun fs filename =>
       match fs !! filename with
       | Some (File (Byte.x25 :: _) _) => Ok (Some (pdf_parser filename), Some "application/pdf")
       | Some (File [] _) => Raise (ValueError "empty file")
       | _ => Ok (None, None)
       end)
    (fun p fs => (Ok pdf_meta, fs))
    (fun p fs =>
       match fs !! parser_filename p with
       | Some (File d _) => (Ok true, <[output_filename p := File d 384]> fs)
       | _ => (Raise (RuntimeError "cannot open"), fs)
       end).

Definition srv_fs : gmap string node := {[ "/" := Dir 493; "/srv" := Dir 493 ]}.

Definition srv_world : world := World srv_fs "/srv" 18 RequestThread [].

(** The same service started under a umask that creates files the owner may
    only read. *)
Definition readonly_world : world := World srv_fs "/srv" 146 RequestThread [].

(** The same service started under a umask that creates files without any
    permission. *)
Definition locked_world : world := World srv_fs "/srv" 511 RequestThread [].

Definition pdf_upload : UploadFile :=
  mkUploadFile "a.pdf" [Byte.x25; Byte.x50; Byte.x44; Byte.x46].

Definition garbage_upload : UploadFile :=
  mkUploadFile "a.bin" [Byte.x00; Byte.x01].

Definition sample_draw : Z := 24197857161011715162171839636988778104.


(** An upload whose name holds a NUL character. *)
Definition nul_upload : UploadFile :=
  mkUploadFile (String "a" (String Ascii.zero ".pdf"))
               [Byte.x25; Byte.x50; Byte.x44; Byte.x46].

(** A world in which a cleaned document waits at [/srv/a.pdf]. *)
Definition stored_world : world :=
  World (<[ "/srv/a.pdf" := File (upload_body pdf_upload) 420 ]> srv_fs)
        "/srv" 18 WorkerProcess [].

(** ** The health probe

    [check_dependencies()] of libmat2 returns a dictionary from the name of
    a dependency to whether it was found and whether it is required. *)

Record dependency := Dependency { found : bool; required : bool }.

(** The order of [sorted] on the items of a dictionary: by key (keys are
    distinct, so the values are never compared). *)
Definition key_le (a b : string * dependency) : Prop := String.leb a.1 b.1 = true.

#[global] Instance key_le_dec a b : Decision (key_le a b).
Proof. unfold key_le. apply _. Defined.

(** [sorted(d.items())] *)
Definition sorted_items (d : gmap string dependency) : list (string * dependency) :=
  merge_sort key_le (map_to_list d).

(** [for x in l: body(x)] *)
Fixpoint for_each {A} (l : list A) (body : A -> M unit) : M unit :=
  match l with
  | [] => ret tt
  | x :: r => body x ;;; for_each r body
  end.

(** ['- %s: %s %s' % (key, 'yes' if value['found'] else 'no',
                       '(optional)' if not value['required'] else '')] *)
Definition health_line (key : string) (value : dependency) : string :=
  "- " ++ key ++ ": " ++ (if found value then "yes" else "no") ++ " "
    ++ (if negb (required value) then "(optional)" else "").

(** [GET /healthz] *)
Definition get_health (category_is_C : ascii -> bool)
    (check_dependencies : gmap string dependency) : M string :=
  for_each (sorted_items check_dependencies)
    (fun kv => __print_without_chars category_is_C (health_line kv.1 kv.2)) ;;;
  ret "OK".

(** ** Further vocabulary *)

(** A run that leaves the filesystem and the working directory as they are. *)
Definition same_files (w w' : world) : Prop := fs w' = fs w /\ cwd w' = cwd w.

(** What [/show/] turns an exception of its [try] body into. *)
Definition show_raises (e : exn) : exn :=
  match e with
  | HTTPException _ _ => e
  | CancelledError => e
  | _ => HTTPException 500 "Metadata cannot be extracted"
  end.

(** What [/clean/] turns an exception of its [try] body into. *)
Definition clean_raises (e : exn) : exn :=
  match e with
  | ValueError msg => HTTPException 400 msg
  | RuntimeError msg => HTTPException 400 msg
  | _ => e
  end.

(** What [clean_meta] turns an exception of [remove_all] into. *)
Definition clean_meta_raises (e : exn) : exn :=
  match e with
  | RuntimeError msg => RuntimeError ("can't be cleaned: " ++ msg)
  | _ => e
  end.

(** The [Content-Disposition] header of a cleaned download. *)
Definition download_headers (filename : string) : list (string * string) :=
  let (prefix, extension) := os_path_splitext filename in
  [("Content-Disposition",
    "attachment; filename=" ++ String dquote
      (prefix ++ "_metaclean" ++ extension ++ String dquote ""))].

(** An engine whose parser resolution fails on every file, and one whose
    [remove_all] reports success without writing anything. *)
Definition failing_engine : engine :=
  Engine (fun _ _ => Raise (ValueError "bad header"))
         (fun _ fs => (Raise (RuntimeError "unreachable"), fs))
         (fun _ fs => (Raise (RuntimeError "unreachable"), fs)).

Definition careless_engine (r : result bool) : engine :=
  Engine (fun _ filename => Ok (Some (pdf_parser filename), Some "application/pdf"))
         (fun _ fs => (Raise (RuntimeError "no metadata"), fs))
         (fun _ fs => (r, fs)).

(** An engine whose [get_meta] loses the file it reads. *)
Definition losing_engine : engine :=
  Engine (fun _ filename => Ok (Some (pdf_parser filename), Some "application/pdf"))
         (fun p fs => (Ok pdf_meta, delete (parser_filename p) fs))
         (fun _ fs => (Ok false, fs)).

Definition sample_dependencies : gmap string dependency :=
  {[ "Mutagen" := Dependency true true;
     "Exiftool" := Dependency false true;
     "Ffmpeg" := Dependency false false ]}.

(** * Properties *)

(** ** Running computations *)

Lemma bind_ok {A B} (m : M A) (k : A -> M B) w a w' :
  m w = (Ok a, w') -> bind m k w = k a w'.
Proof. intros E. unfold bind. by rewrite E. Qed.

Lemma run_ok {A} (m : M A) w a : fst (m w) = Ok a -> m w = (Ok a, snd (m w)).
Proof. destruct (m w); simpl; congruence. Qed.

Section Frame.

Variable R : world -> world -> Prop.
Hypothesis R_refl : forall w, R w w.
Hypothesis R_trans : forall a b c, R a b -> R b c -> R a c.

Lemma respects_ret {A} (a : A) : respects R (ret a).
Proof. intros w. apply R_refl. Qed.

Lemma respects_raise {A} e : respects R (@raise A e).
Proof. intros w. apply R_refl. Qed.

Lemma respects_bind {A B} (m : M A) (k : A -> M B) :
  respects R m -> (forall a, respects R (k a)) -> respects R (bind m k).
Proof.
  intros Hm Hk w. unfold bind. specialize (Hm w).
  destruct (m w) as [[a|e] w1]; simpl in *; [|done].
  eapply R_trans; [exact Hm|apply Hk].
Qed.

Lemma respects_try_except {A} (body : M A) (handler : exn -> M A) :
  respects R body -> (forall e, respects R (handler e)) ->
  respects R (try_except body handler).
Proof.
  intros Hb Hh w. unfold try_except. specialize (Hb w).
  destruct (body w) as [[a|e] w1]; simpl in *; [done|].
  eapply R_trans; [exact Hb|apply Hh].
Qed.

Lemma respects_try_finally {A} (body : M A) (fin : M unit) :
  respects R body -> respects R fin -> respects R (try_finally body fin).
Proof.
  intros Hb Hf w. unfold try_finally. specialize (Hb w).
  destruct (body w) as [r w1]; simpl in *. specialize (Hf w1).
  destruct (fin w1) as [[u|e] w2]; simpl in *; eapply R_trans; eauto.
Qed.

End Frame.

Lemma emits_refl c P w : emits c P w w.
Proof.
  intros Hc. split_and!; [done..|]. exists []. by rewrite app_nil_r.
Qed.

Lemma emits_trans c P w1 w2 w3 : emits c P w1 w2 -> emits c P w2 w3 -> emits c P w1 w3.
Proof.
  intros H12 H23 Hc. destruct (H12 Hc) as (Hd & Hr & evs & Ht & HP).
  destruct (H23 Hr) as (Hd' & Hr' & evs' & Ht' & HP').
  split_and!; [congruence|done|].
  exists (evs ++ evs')%list. split; [|by apply Forall_app].
  by rewrite Ht', Ht, app_assoc.
Qed.

Lemma emits_new_events c P w w' :
  running_in w = c -> emits c P w w' -> Forall P (new_events w w').
Proof.
  intros Hc H. destruct (H Hc) as (_ & _ & evs & Ht & HP).
  unfold new_events. by rewrite Ht, drop_app_length.
Qed.

(** A step that leaves everything but the filesystem alone. *)
Lemma emits_set_fs c P f w : emits c P w (set_fs f w).
Proof.
  intros Hc. split_and!; [done..|]. exists []. simpl. by rewrite app_nil_r.
Qed.

Lemma emits_log c (P : event -> Prop) e w : P e -> emits c P w (log e w).
Proof.
  intros HP Hc. split_and!; [done..|]. exists [e]. split; [done|]. by constructor.
Qed.

(** ** What the pipeline emits *)

Section Emits.

Variable category_is_C : ascii -> bool.
Variable libmat2 : engine.
Variable c : ctx.
Variable P : event -> Prop.
Hypothesis P_print : forall line, P (EvPrint line).

Local Abbreviation ok := (respects (emits c P)).

Lemma ok_ret {A} (a : A) : ok (ret a).
Proof. apply respects_ret, emits_refl. Qed.

Lemma ok_raise {A} e : ok (@raise A e).
Proof. apply respects_raise, emits_refl. Qed.

Lemma ok_bind {A B} (m : M A) (k : A -> M B) :
  ok m -> (forall a, ok (k a)) -> ok (bind m k).
Proof. apply respects_bind, emits_trans. Qed.

Lemma ok_try_except {A} (body : M A) (handler : exn -> M A) :
  ok body -> (forall e, ok (handler e)) -> ok (try_except body handler).
Proof. apply respects_try_except, emits_trans. Qed.

Lemma ok_try_finally {A} (body : M A) (fin : M unit) :
  ok body -> ok fin -> ok (try_finally body fin).
Proof. apply respects_try_finally, emits_trans. Qed.

Ltac prim f :=
  intros w; unfold f; repeat case_match; simpl;
  first [apply emits_refl | apply emits_set_fs].

Lemma ok_abspath p : ok (os_path_abspath p).
Proof. prim os_path_abspath. Qed.

Lemma ok_exists p : ok (os_path_exists p).
Proof. prim os_path_exists. Qed.

Lemma ok_isfile p : ok (os_path_isfile p).
Proof. prim os_path_isfile. Qed.

Lemma ok_access p mode : ok (os_access p mode).
Proof. prim os_access. Qed.

Lemma ok_remove p : ok (os_remove p).
Proof. prim os_remove. Qed.

Lemma ok_rename src dst : ok (os_rename src dst).
Proof. prim os_rename. Qed.

Lemma ok_copymode src dst : ok (shutil_copymode src dst).
Proof. prim shutil_copymode. Qed.

Lemma ok_aiof_write p data : ok (aiof_write p data).
Proof. prim aiof_write. Qed.

Lemma ok_aiof_read p : ok (aiof_read p).
Proof. prim aiof_read. Qed.

Lemma ok_streaming_response content media_type headers :
  ok (StreamingResponse_init content media_type headers).
Proof.
  unfold StreamingResponse_init.
  destruct (headers_error headers); [apply ok_raise|apply ok_ret].
Qed.

Lemma ok_print s : ok (print s).
Proof. intros w. apply emits_log, P_print. Qed.

Lemma ok_print_without_chars s : ok (__print_without_chars category_is_C s).
Proof. apply ok_print. Qed.

Lemma ok_get_parser filename :
  P (EvGetParser c filename) -> ok (parser_factory_get_parser libmat2 filename).
Proof.
  intros HP w Hc. unfold parser_factory_get_parser. simpl.
  rewrite Hc. split_and!; [done..|]. exists [EvGetParser c filename].
  split; [done|]. by constructor.
Qed.

Lemma ok_p_get_meta p : P (EvGetMeta c p) -> ok (p_get_meta libmat2 p).
Proof.
  intros HP w Hc. unfold p_get_meta.
  destruct (engine_get_meta libmat2 p (fs w)) as [r fs']. simpl.
  rewrite Hc. split_and!; [done..|]. exists [EvGetMeta c p]. split; [done|].
  by constructor.
Qed.

Lemma ok_p_remove_all p : P (EvRemoveAll c p) -> ok (p_remove_all libmat2 p).
Proof.
  intros HP w Hc. unfold p_remove_all.
  destruct (engine_remove_all libmat2 p (fs w)) as [r fs']. simpl.
  rewrite Hc. split_and!; [done..|]. exists [EvRemoveAll c p]. split; [done|].
  by constructor.
Qed.

End Emits.

Lemma ok_run_in_executor {A} c (P : event -> Prop) (f : M A) :
  respects (emits WorkerProcess P) f -> respects (emits c P) (run_in_executor f).
Proof.
  intros Hf w Hc. unfold run_in_executor.
  specialize (Hf (set_running_in WorkerProcess w)).
  destruct (f (set_running_in WorkerProcess w)) as [r w']. simpl in *.
  destruct (Hf eq_refl) as (Hd & _ & evs & Ht & HP).
  split_and!; [done..|]. by exists evs.
Qed.

Create HintDb emits.

#[local] Hint Resolve ok_ret ok_raise ok_abspath ok_exists ok_isfile ok_access
  ok_remove ok_rename ok_copymode ok_aiof_write ok_aiof_read ok_print
  ok_print_without_chars ok_get_parser ok_p_get_meta ok_p_remove_all
  ok_streaming_response : emits.

Ltac frame :=
  repeat first
    [ solve [eauto with emits]
    | apply ok_bind; [|intros ?]
    | apply ok_try_except; [|intros ?]
    | apply ok_try_finally
    | apply ok_run_in_executor
    | match goal with
      | |- respects _ (if ?b then _ else _) => destruct b
      | |- respects _ (match ?x with _ => _ end) => destruct x
      | |- respects _ (let (_, _) := ?x in _) => destruct x
      end ].

Section Pipeline.

Variable category_is_C : ascii -> bool.
Variable libmat2 : engine.
Variable c : ctx.
Variable P : event -> Prop.
Hypothesis P_print : forall line, P (EvPrint line).

Lemma ok_check_file filename mode :
  respects (emits c P) (__check_file category_is_C filename mode).
Proof. unfold __check_file. frame. Qed.

#[local] Hint Resolve ok_check_file : emits.

Lemma ok_get_meta filename sb :
  P (EvGetParser c filename) ->
  (forall p, P (EvGetMeta c (set_sandbox sb p))) ->
  respects (emits c P) (get_meta category_is_C libmat2 filename sb).
Proof. intros HP HM. unfold get_meta. frame. Qed.

Lemma ok_clean_meta filename lw inplace sb policy :
  P (EvGetParser c filename) ->
  (forall p, P (EvRemoveAll c
     (set_sandbox sb (set_lightweight_cleaning lw (set_unknown_member_policy policy p))))) ->
  respects (emits c P) (clean_meta category_is_C libmat2 filename lw inplace sb policy).
Proof. intros HP HM. unfold clean_meta. frame. Qed.

Lemma ok_cache_delete_file filename : respects (emits c P) (cache_delete_file filename).
Proof. unfold cache_delete_file. frame. Qed.

Lemma ok_clean_finally filename : respects (emits c P) (clean_finally filename).
Proof. unfold clean_finally. frame. Qed.

End Pipeline.

#[local] Hint Resolve ok_check_file ok_get_meta ok_clean_meta ok_cache_delete_file
  ok_clean_finally : emits.

Lemma ok_show category_is_C libmat2 c (P : event -> Prop) file sb r :
  (forall line, P (EvPrint line)) ->
  (forall f, P (EvGetParser c f)) ->
  (forall p, P (EvGetMeta c (set_sandbox sb p))) ->
  respects (emits c P) (show category_is_C libmat2 file sb r).
Proof. intros HL HP HM. unfold show. frame. Qed.

Lemma ok_clean category_is_C libmat2 c (P : event -> Prop) file lw policy sb r :
  (forall line, P (EvPrint line)) ->
  (forall f, P (EvGetParser WorkerProcess f)) ->
  (forall p, P (EvRemoveAll WorkerProcess
     (set_sandbox sb (set_lightweight_cleaning lw (set_unknown_member_policy policy p))))) ->
  respects (emits c P) (clean category_is_C libmat2 file lw policy sb r).
Proof. intros HL HP HM. unfold clean. frame. Qed.

(** ** Paths *)

Lemma path_join_abs a p : isabs p = true -> path_join a p = p.
Proof. intros H. unfold path_join. by rewrite H. Qed.

Lemma isabs_app a b : isabs a = true -> isabs (a ++ b) = true.
Proof. by destruct a. Qed.

Lemma isabs_path_join a p : isabs a = true -> isabs (path_join a p) = true.
Proof.
  intros H. unfold path_join. destruct (isabs p) eqn:Hp; [done|].
  case_match; by apply isabs_app.
Qed.

Lemma path_join_idem a p :
  isabs a = true -> path_join a (path_join a p) = path_join a p.
Proof. intros H. by apply path_join_abs, isabs_path_join. Qed.

Lemma lookup_path_abspath w p :
  isabs (cwd w) = true -> lookup_path w (path_join (cwd w) p) = lookup_path w p.
Proof. intros H. unfold lookup_path. by rewrite path_join_idem. Qed.

(** ** Cleanup *)

(** After [try: ... finally: os.remove(p)] no regular file is left at [p],
    whatever the body did. *)
Lemma try_finally_remove {A} (body : M A) p w :
  path_isfile (snd (try_finally body (os_remove p) w)) p = false.
Proof.
  unfold try_finally. destruct (body w) as [r w1].
  unfold os_remove. destruct (lookup_path w1 p) as [[d m|m]|] eqn:E; simpl.
  - unfold path_isfile, lookup_path. simpl. by rewrite lookup_delete_eq.
  - unfold path_isfile. by rewrite E.
  - unfold path_isfile. by rewrite E.
Qed.

Lemma clean_finally_removes p w :
  isabs (cwd w) = true -> path_isfile (snd (clean_finally p w)) p = false.
Proof.
  intros Habs. unfold clean_finally, bind, os_path_abspath, os_path_isfile, ret.
  simpl.
  assert (Hf : path_isfile w (path_join (cwd w) p) = path_isfile w p).
  { unfold path_isfile. by rewrite lookup_path_abspath. }
  rewrite Hf. unfold path_isfile in *.
  destruct (lookup_path w p) as [[d m|m]|] eqn:E; simpl; try by rewrite E.
  unfold os_remove. rewrite lookup_path_abspath, E by done. simpl.
  unfold lookup_path. simpl. by rewrite path_join_idem, lookup_delete_eq.
Qed.

Lemma clean_finally_noop p w :
  path_isfile w (path_join (cwd w) p) = false -> clean_finally p w = (Ok tt, w).
Proof.
  intros Hgone. unfold clean_finally, bind, os_path_abspath, os_path_isfile.
  simpl. by rewrite Hgone.
Qed.

Lemma clean_finally_returns p w : exists w', clean_finally p w = (Ok tt, w').
Proof.
  unfold clean_finally, bind, os_path_abspath, os_path_isfile, os_remove, path_isfile.
  simpl. destruct (lookup_path w (path_join (cwd w) p)) as [[d m|m]|] eqn:E;
    simpl; rewrite ?E; by eexists.
Qed.

Lemma try_finally_clean {A} (body : M A) p w :
  isabs (cwd w) = true ->
  respects (emits (running_in w) (fun _ => True)) body ->
  path_isfile (snd (try_finally body (clean_finally p) w)) p = false.
Proof.
  intros Habs Hb. unfold try_finally. specialize (Hb w).
  destruct (body w) as [r w1]. simpl in Hb. destruct (Hb eq_refl) as (Hd & _).
  pose proof (clean_finally_removes p w1) as Hf. rewrite Hd in Hf.
  specialize (Hf Habs). by destruct (clean_finally p w1) as [[u|e] w2].
Qed.

Section Requests.

Variable category_is_C : ascii -> bool.
Variable libmat2 : engine.

(** C1.  Once the upload of a request to [/show/] or [/clean/] has been
    written to its artifact path, no regular file is left at that path when
    the handler is done, whether it returns a response or raises: the
    [finally] clause runs on every exit of the [try] statement.  In the clean
    flow the clause does nothing, and does not fail, when the file is already
    gone. *)
Theorem artifact_removed_on_every_exit
    (file : UploadFile) (lw sb : bool) (policy : UnknownMemberPolicy) (r : Z)
    (w : world) :
  isabs (cwd w) = true ->
  fst (aiof_write (artifact_name r file) (upload_body file) w) = Ok tt ->
  path_isfile (snd (show category_is_C libmat2 file sb r w)) (artifact_name r file)
    = false
  /\ path_isfile (snd (clean category_is_C libmat2 file lw policy sb r w))
       (artifact_name r file) = false
  /\ (forall w' : world,
        path_isfile w' (path_join (cwd w') (artifact_name r file)) = false ->
        clean_finally (artifact_name r file) w' = (Ok tt, w')).
Proof.
  intros Habs Hw. apply run_ok in Hw.
  set (w1 := snd (aiof_write (artifact_name r file) (upload_body file) w)) in *.
  assert (Hcwd : cwd w1 = cwd w).
  { pose proof (ok_aiof_write (running_in w) (fun _ => True)
                  (artifact_name r file) (upload_body file) w) as H.
    by destruct (H eq_refl). }
  split_and!.
  - unfold show. rewrite (bind_ok _ _ _ _ _ Hw). apply try_finally_remove.
  - unfold clean. rewrite (bind_ok _ _ _ _ _ Hw).
    destruct (os_path_splitext (upload_filename file)) as [prefix extension].
    unfold bind at 1.
    match goal with
    | |- context [try_finally ?b ?f w1] =>
        pose proof (try_finally_clean b (artifact_name r file) w1) as Hf;
        destruct (try_finally b f w1) as [[[resp|]|e] w2]
    end; cbv beta iota; unfold ret, raise; cbn [snd] in Hf |- *;
      apply Hf; try congruence; frame.
  - intros w' Hgone. by apply clean_finally_noop.
Qed.

(** ** The accessibility check *)

Lemma check_file_true filename mode w :
  accessible w filename mode = true ->
  __check_file category_is_C filename mode w = (Ok true, w).
Proof.
  unfold accessible, __check_file, bind, os_path_exists, os_path_isfile, os_access.
  intros H. apply andb_prop in H as [H Ha]. apply andb_prop in H as [He Hf].
  cbv beta. rewrite He. simpl. rewrite Hf. simpl. by rewrite Ha.
Qed.

Lemma check_file_false filename mode w :
  accessible w filename mode = false ->
  exists line,
    __check_file category_is_C filename mode w = (Ok false, log (EvPrint line) w).
Proof.
  unfold accessible, __check_file, bind, os_path_exists, os_path_isfile, os_access.
  intros H. cbv beta.
  destruct (path_exists w filename); simpl in *; [|by eexists].
  destruct (path_isfile w filename); simpl in *; [|by eexists].
  rewrite H. simpl. by eexists.
Qed.

Lemma new_events_log e w : new_events w (log e w) = [e].
Proof. unfold new_events. simpl. by rewrite drop_app_length. Qed.

Lemma emits_after_log e w w' :
  emits (running_in w) (fun _ => True) (log e w) w' -> In e (new_events w w').
Proof.
  intros H. destruct (H eq_refl) as (_ & _ & evs & Ht & _).
  unfold new_events. rewrite Ht. simpl. rewrite <- app_assoc, drop_app_length.
  by left.
Qed.

(** Once the parser factory is called, its call stays in the trace whatever
    the handler and the continuation do. *)
Lemma get_parser_then {A} (h : exn -> M (option parser * option string))
    (k : option parser * option string -> M A) filename w :
  (forall e, respects (emits (running_in w) (fun _ => True)) (h e)) ->
  (forall a, respects (emits (running_in w) (fun _ => True)) (k a)) ->
  In (EvGetParser (running_in w) filename)
     (new_events w
        (snd (bind (try_except (parser_factory_get_parser libmat2 filename) h) k w))).
Proof.
  intros Hh Hk. apply emits_after_log.
  unfold bind, try_except, parser_factory_get_parser.
  destruct (engine_get_parser libmat2 (fs w) filename) as [pm|e].
  - apply Hk.
  - pose proof (Hh e (log (EvGetParser (running_in w) filename) w)) as H1.
    destruct (h e (log (EvGetParser (running_in w) filename) w)) as [[a|e'] w2];
      simpl in *; [|done].
    eapply emits_trans; [exact H1|]. apply Hk.
Qed.

(** C7.  [__check_file] always returns a boolean, and it returns [True]
    exactly when the path exists, is a regular file and grants the requested
    access.  The clean flow (in place) asks for read and write access, the
    inspect flow for read access only: the parser factory is reached exactly
    when the file passes the check with that mode. *)
Theorem check_file_accessible :
  (forall filename mode w,
     exists b : bool,
       fst (__check_file category_is_C filename mode w) = Ok b
       /\ (b = true <->
           path_exists w filename = true /\ path_isfile w filename = true
           /\ path_access w filename mode = true))
  /\ (forall filename lw sb policy w,
        In (EvGetParser (running_in w) filename)
           (new_events w
              (snd (clean_meta category_is_C libmat2 filename lw true sb policy w)))
        <-> accessible w filename (Z.lor R_OK W_OK) = true)
  /\ (forall filename sb w,
        In (EvGetParser (running_in w) filename)
           (new_events w (snd (get_meta category_is_C libmat2 filename sb w)))
        <-> accessible w filename R_OK = true).
Proof.
  split_and!.
  - intros filename mode w. exists (accessible w filename mode). split.
    + destruct (accessible w filename mode) eqn:E.
      * by rewrite check_file_true.
      * destruct (check_file_false _ _ _ E) as [line ->]. done.
    + unfold accessible. rewrite !andb_true_iff. tauto.
  - intros filename lw sb policy w. split.
    + intros Hin. destruct (accessible w filename (Z.lor R_OK W_OK)) eqn:E; [done|].
      destruct (check_file_false _ _ _ E) as [line Hc].
      unfold clean_meta in Hin. rewrite (bind_ok _ _ _ _ _ Hc) in Hin.
      simpl in Hin. rewrite new_events_log in Hin.
      by destruct Hin as [?|[]].
    + intros E. unfold clean_meta.
      rewrite (bind_ok _ _ _ _ _ (check_file_true _ _ _ E)). simpl.
      apply get_parser_then; intros; frame.
  - intros filename sb w. split.
    + intros Hin. destruct (accessible w filename R_OK) eqn:E; [done|].
      destruct (check_file_false _ _ _ E) as [line Hc].
      unfold get_meta in Hin. rewrite (bind_ok _ _ _ _ _ Hc) in Hin.
      simpl in Hin. rewrite new_events_log in Hin.
      by destruct Hin as [?|[]].
    + intros E. unfold get_meta.
      rewrite (bind_ok _ _ _ _ _ (check_file_true _ _ _ E)). simpl.
      apply get_parser_then; intros; frame.
Qed.

(** ** Engine calls: configuration and place of execution *)

Lemma get_parser_resolved {A} (h : exn -> M (option parser * option string))
    (k : option parser * option string -> M A) filename w pm :
  engine_get_parser libmat2 (fs w) filename = Ok pm ->
  bind (try_except (parser_factory_get_parser libmat2 filename) h) k w
  = k pm (log (EvGetParser (running_in w) filename) w).
Proof.
  intros Hp. unfold bind, try_except, parser_factory_get_parser. by rewrite Hp.
Qed.

(** An event logged after [w] stays among the new events of any later world. *)
Lemma In_new_events_later e w w0 w' :
  (exists pre, trace w0 = (trace w ++ pre ++ [e])%list) ->
  emits (running_in w0) (fun _ => True) w0 w' ->
  In e (new_events w w').
Proof.
  intros [pre Ht] H. destruct (H eq_refl) as (_ & _ & evs & Ht' & _).
  unfold new_events. rewrite Ht', Ht, <- !app_assoc, drop_app_length.
  apply in_or_app. right. by left.
Qed.

(** The engine call of a method stays in the trace whatever follows it. *)
Lemma remove_all_then {A} (k : bool -> M A) (h : exn -> M A) p w w0 :
  (exists pre, trace w0 = (trace w ++ pre)%list) ->
  (forall b, respects (emits (running_in w0) (fun _ => True)) (k b)) ->
  (forall e, respects (emits (running_in w0) (fun _ => True)) (h e)) ->
  In (EvRemoveAll (running_in w0) p)
     (new_events w (snd (try_except (bind (p_remove_all libmat2 p) k) h w0))).
Proof.
  intros [pre Ht] Hk Hh. unfold try_except, bind, p_remove_all.
  destruct (engine_remove_all libmat2 p (fs w0)) as [[b|e] fs'].
  - set (w2 := set_fs fs' (log (EvRemoveAll (running_in w0) p) w0)).
    assert (H2 : exists q, trace w2 = (trace w ++ q ++ [EvRemoveAll (running_in w0) p])%list).
    { exists pre. simpl. by rewrite Ht, app_assoc. }
    pose proof (Hk b w2) as Hb.
    destruct (k b w2) as [[a|e] w3]; simpl in Hb |- *.
    + eapply In_new_events_later; [exact H2|exact Hb].
    + eapply In_new_events_later; [exact H2|].
      eapply emits_trans; [exact Hb|apply (Hh e w3)].
  - set (w2 := set_fs fs' (log (EvRemoveAll (running_in w0) p) w0)).
    assert (H2 : exists q, trace w2 = (trace w ++ q ++ [EvRemoveAll (running_in w0) p])%list).
    { exists pre. simpl. by rewrite Ht, app_assoc. }
    eapply In_new_events_later; [exact H2|apply (Hh e w2)].
Qed.

(** [get_meta] once the check passed and a parser resolved: the engine call
    on the parser with the sandbox flag set. *)
Lemma get_meta_resolved (filename : string) (sb : bool) (w : world) (p : parser)
    (mtype : option string) :
  accessible w filename R_OK = true ->
  engine_get_parser libmat2 (fs w) filename = Ok (Some p, mtype) ->
  get_meta category_is_C libmat2 filename sb w
  = p_get_meta libmat2 (set_sandbox sb p)
      (log (EvGetParser (running_in w) filename) w).
Proof.
  intros Ha Hp. unfold get_meta.
  rewrite (bind_ok _ _ _ _ _ (check_file_true _ _ _ Ha)).
  change (negb true) with false. cbv beta iota.
  by rewrite (get_parser_resolved _ _ _ _ _ Hp).
Qed.

(** The engine call of [/show/] stays in the trace whatever the handlers and
    the [finally] clause of the request do after it. *)
Lemma get_meta_call_then {A} (body : M A) (k : metadata -> M A) (h : exn -> M A)
    (fin : M unit) p w w1 w0 :
  body w1 = bind (p_get_meta libmat2 p) k w0 ->
  (exists pre, trace w0 = (trace w ++ pre)%list) ->
  (forall md, respects (emits (running_in w0) (fun _ => True)) (k md)) ->
  (forall e, respects (emits (running_in w0) (fun _ => True)) (h e)) ->
  respects (emits (running_in w0) (fun _ => True)) fin ->
  In (EvGetMeta (running_in w0) p)
     (new_events w (snd (try_finally (try_except body h) fin w1))).
Proof.
  intros Hbody [pre Ht] Hk Hh Hf. unfold try_finally, try_except.
  rewrite Hbody. unfold bind, p_get_meta.
  destruct (engine_get_meta libmat2 p (fs w0)) as [res fs'].
  set (w2 := set_fs fs' (log (EvGetMeta (running_in w0) p) w0)).
  assert (H2 : exists q, trace w2 = (trace w ++ q ++ [EvGetMeta (running_in w0) p])%list).
  { exists pre. simpl. by rewrite Ht, app_assoc. }
  apply (In_new_events_later _ _ w2); [exact H2|].
  change (running_in w2) with (running_in w0).
  destruct res as [md|e].
  - pose proof (Hk md w2) as Hb.
    destruct (k md w2) as [[a|e] w3]; simpl in Hb |- *.
    + pose proof (Hf w3) as Hc.
      destruct (fin w3) as [[u|e] w4]; simpl in Hc |- *; by eapply emits_trans.
    + pose proof (Hh e w3) as Hd. destruct (h e w3) as [r4 w4]; simpl in Hd |- *.
      pose proof (Hf w4) as Hc.
      destruct (fin w4) as [[u|e'] w5]; simpl in Hc |- *;
        (eapply emits_trans; [exact Hb|]; by eapply emits_trans).
  - pose proof (Hh e w2) as Hd. destruct (h e w2) as [r4 w4]; simpl in Hd |- *.
    pose proof (Hf w4) as Hc.
    destruct (fin w4) as [[u|e'] w5]; simpl in Hc |- *; by eapply emits_trans.
Qed.

(** C8.  Every [remove_all] call that [clean_meta] makes is made on a parser
    that carries the three options of the request (unknown-member policy,
    lightweight flag, sandbox flag), and every [get_meta] call that a
    [/show/] request makes is made on a parser that carries its sandbox
    flag.  The call is made, on the resolved parser with the three options
    set, whenever the file passes the check and a parser resolves; and a
    [/show/] request whose stored upload passes the check and resolves to a
    parser makes its [get_meta] call on that parser with the sandbox flag of
    the request set. *)
Theorem configuration_set_before_engine_call :
  (forall filename lw inplace sb policy w,
     Forall (fun e => match e with
                      | EvRemoveAll _ p => configured policy lw sb p
                      | _ => True
                      end)
       (new_events w
          (snd (clean_meta category_is_C libmat2 filename lw inplace sb policy w))))
  /\ (forall file sb r w,
        Forall (fun e => match e with
                         | EvGetMeta _ p => sandbox p = sb
                         | _ => True
                         end)
          (new_events w (snd (show category_is_C libmat2 file sb r w))))
  /\ (forall (filename : string) (lw inplace sb : bool)
             (policy : UnknownMemberPolicy) (w : world) (p : parser)
             (mtype : option string),
        accessible w filename (if inplace then Z.lor R_OK W_OK else R_OK) = true ->
        engine_get_parser libmat2 (fs w) filename = Ok (Some p, mtype) ->
        configured policy lw sb
          (set_sandbox sb
             (set_lightweight_cleaning lw (set_unknown_member_policy policy p)))
        /\ In (EvRemoveAll (running_in w)
                 (set_sandbox sb
                    (set_lightweight_cleaning lw
                       (set_unknown_member_policy policy p))))
              (new_events w
                 (snd (clean_meta category_is_C libmat2 filename lw inplace sb
                         policy w))))
  /\ (forall (file : UploadFile) (sb : bool) (r : Z) (w w1 : world) (p : parser)
             (mtype : option string),
        aiof_write (artifact_name r file) (upload_body file) w = (Ok tt, w1) ->
        accessible w1 (path_join (cwd w1) (artifact_name r file)) R_OK = true ->
        engine_get_parser libmat2 (fs w1)
          (path_join (cwd w1) (artifact_name r file)) = Ok (Some p, mtype) ->
        sandbox (set_sandbox sb p) = sb
        /\ In (EvGetMeta (running_in w) (set_sandbox sb p))
              (new_events w (snd (show category_is_C libmat2 file sb r w)))).
Proof.
  split_and!.
  - intros filename lw inplace sb policy w.
    eapply emits_new_events; [reflexivity|].
    by apply ok_clean_meta.
  - intros file sb r w.
    eapply emits_new_events; [reflexivity|].
    by apply ok_show.
  - intros filename lw inplace sb policy w p mtype Ha Hp. split; [done|].
    unfold clean_meta.
    rewrite (bind_ok _ _ _ _ _ (check_file_true _ _ _ Ha)).
    change (negb true) with false. cbv beta iota.
    rewrite (get_parser_resolved _ _ _ _ _ Hp). cbv beta iota.
    apply (remove_all_then _ _ _ w (log (EvGetParser (running_in w) filename) w)).
    + by eexists.
    + intros b. frame.
    + intros e. frame.
  - intros file sb r w w1 p mtype Hw Ha Hp. split; [done|].
    assert (Hw1 : trace w1 = trace w /\ running_in w1 = running_in w).
    { pose proof (ok_aiof_write (running_in w) (fun _ => False)
                    (artifact_name r file) (upload_body file) w) as H.
      rewrite Hw in H. destruct (H eq_refl) as (_ & Hr & evs & Ht & Hevs).
      destruct Hevs as [|ev evs []]. by rewrite app_nil_r in Ht. }
    destruct Hw1 as [Ht Hr]. rewrite <- Hr.
    set (name := artifact_name r file) in *.
    set (a := path_join (cwd w1) name) in *.
    unfold show. fold name. rewrite (bind_ok _ _ _ _ _ Hw).
    apply (get_meta_call_then _ (fun md => ret (JSONResponse md "text/plain"))
             _ _ _ w w1 (log (EvGetParser (running_in w1) a) (log (EvPrint a) w1))).
    + unfold bind at 1 2 3 4, os_path_abspath, print. cbv beta iota. fold a.
      change (path_join (cwd (log (EvPrint a) w1)) name) with a.
      by rewrite (get_meta_resolved a sb (log (EvPrint a) w1) p mtype Ha Hp).
    + exists [EvPrint a; EvGetParser (running_in w1) a]. cbn [trace log].
      by rewrite Ht, <- app_assoc.
    + intros md. frame.
    + intros e. frame.
    + frame.
Qed.

(** C3 (as the code has it).  A [/clean/] request makes its engine calls in a
    process of the pool; a [/show/] request makes them where the handler
    itself runs, without going through the pool. *)
Theorem engine_calls_run_where_dispatched :
  (forall file lw policy sb r w,
     Forall (fun e => event_ctx e = None \/ event_ctx e = Some WorkerProcess)
       (new_events w (snd (clean category_is_C libmat2 file lw policy sb r w))))
  /\ (forall file sb r w,
        Forall (fun e => event_ctx e = None \/ event_ctx e = Some (running_in w))
          (new_events w (snd (show category_is_C libmat2 file sb r w)))).
Proof.
  split.
  - intros file lw policy sb r w.
    eapply emits_new_events; [reflexivity|].
    apply ok_clean; intros; simpl; auto.
  - intros file sb r w.
    eapply emits_new_events; [reflexivity|].
    apply ok_show; intros; simpl; auto.
Qed.

(** ** Capturing the cleaned file *)

Lemma BytesIO_capture d :
  BytesIO_seek (BytesIO_write BytesIO_new d) 0 = mkBytesIO d 0.
Proof.
  unfold BytesIO_seek, BytesIO_write, BytesIO_new. simpl.
  by rewrite drop_nil, app_nil_r.
Qed.


(** C9.  On a path that names an existing file the process may read,
    [cache_delete_file] returns a buffer that holds exactly the bytes of the
    file and stands at offset 0, so that reading it yields the whole content;
    afterwards nothing exists at the path. *)
Theorem cache_delete_file_captures (filename : string) (w : world) (d : bytes) (m : Z) :
  isabs (cwd w) = true ->
  lookup_path w filename = Some (File d m) ->
  mode_allows m R_OK = true ->
  exists (b : BytesIO) (w' : world),
    cache_delete_file filename w = (Ok (Some b), w')
    /\ buf b = d /\ pos b = 0 /\ BytesIO_read b = d
    /\ path_exists w' filename = false.
Proof.
  intros Habs Hf Hm.
  unfold cache_delete_file, bind, os_path_abspath, aiof_read, os_remove. simpl.
  rewrite lookup_path_abspath, Hf, Hm by done. simpl.
  rewrite lookup_path_abspath, Hf by done. simpl.
  rewrite BytesIO_capture.
  eexists _, _. split; [reflexivity|]. split_and!; try done.
  unfold path_exists, lookup_path. simpl.
  by rewrite path_join_idem, lookup_delete_eq.
Qed.




(** ** After the upload is stored *)

Lemma aiof_write_ok p d w w1 :
  aiof_write p d w = (Ok tt, w1) ->
  exists m, w1 = set_fs (<[path_join (cwd w) p := File d m]> (fs w)) w.
Proof.
  unfold aiof_write. cbv zeta. intros H.
  destruct (string_exists is_nul p); [done|].
  destruct (fs w !! path_join (cwd w) p) as [[d0 m0|m0]|]; [| done |].
  - destruct (mode_allows m0 W_OK); [|done]. exists m0. by injection H as <-.
  - destruct (fs w !! os_path_dirname (path_join (cwd w) p)) as [[?|?]|];
      [done| |done].
    eexists. by injection H as <-.
Qed.

Lemma aiof_write_lookup p d w w1 :
  aiof_write p d w = (Ok tt, w1) ->
  cwd w1 = cwd w /\ exists m, lookup_path w1 p = Some (File d m).
Proof.
  intros H. apply aiof_write_ok in H as [m ->]. split; [done|].
  exists m. unfold lookup_path. simpl. apply lookup_insert_eq.
Qed.

Lemma accessible_file w p mode :
  accessible w p mode = true ->
  exists d m, lookup_path w p = Some (File d m) /\ mode_allows m mode = true.
Proof.
  unfold accessible, path_exists, path_isfile, path_access.
  destruct (lookup_path w p) as [[d m|m]|]; simpl; try done.
  intros H. by exists d, m.
Qed.

Lemma accessible_abspath w p mode :
  isabs (cwd w) = true ->
  accessible w (path_join (cwd w) p) mode = accessible w p mode.
Proof.
  intros H. unfold accessible, path_exists, path_isfile, path_access.
  by rewrite lookup_path_abspath.
Qed.

Lemma get_meta_unsupported filename sb w mtype :
  accessible w filename R_OK = true ->
  engine_get_parser libmat2 (fs w) filename = Ok (None, mtype) ->
  exists line,
    get_meta category_is_C libmat2 filename sb w
    = (Raise (HTTPException 400
                ("format (" ++ str_of_optional mtype ++ ") is not supported")),
       log (EvPrint line) (log (EvGetParser (running_in w) filename) w)).
Proof.
  intros Ha Hp. unfold get_meta.
  rewrite (bind_ok _ _ _ _ _ (check_file_true _ _ _ Ha)).
  change (negb true) with false. cbv beta iota.
  unfold bind, try_except, parser_factory_get_parser, __print_without_chars, print.
  cbv beta. rewrite Hp. eexists. reflexivity.
Qed.

Lemma clean_meta_unsupported (filename : string) (lw inplace sb : bool)
    (policy : UnknownMemberPolicy) (w : world) (mtype : option string) :
  accessible w filename (if inplace then Z.lor R_OK W_OK else R_OK) = true ->
  engine_get_parser libmat2 (fs w) filename = Ok (None, mtype) ->
  exists line,
    clean_meta category_is_C libmat2 filename lw inplace sb policy w
    = (Raise (ValueError
                ("format (" ++ str_of_optional mtype ++ ") is not supported")),
       log (EvPrint line) (log (EvGetParser (running_in w) filename) w)).
Proof.
  intros Ha Hp. unfold clean_meta.
  rewrite (bind_ok _ _ _ _ _ (check_file_true _ _ _ Ha)).
  change (negb true) with false. cbv beta iota.
  unfold bind, try_except, parser_factory_get_parser, __print_without_chars, print.
  cbv beta. rewrite Hp. eexists. reflexivity.
Qed.

(** C5.  When the parser factory finds no parser for the stored upload, both
    [/show/] and [/clean/] answer with an [HTTPException] of status 400 whose
    detail says that the format is not supported. *)
Theorem unsupported_format_is_400
    (file : UploadFile) (lw sb : bool) (policy : UnknownMemberPolicy) (r : Z)
    (w w1 : world) (mtype : option string) :
  isabs (cwd w) = true ->
  aiof_write (artifact_name r file) (upload_body file) w = (Ok tt, w1) ->
  engine_get_parser libmat2 (fs w1) (path_join (cwd w1) (artifact_name r file))
    = Ok (None, mtype) ->
  (accessible w1 (artifact_name r file) R_OK = true ->
   fst (show category_is_C libmat2 file sb r w)
   = Raise (HTTPException 400
              ("format (" ++ str_of_optional mtype ++ ") is not supported")))
  /\ (accessible w1 (artifact_name r file) (Z.lor R_OK W_OK) = true ->
      fst (clean category_is_C libmat2 file lw policy sb r w)
      = Raise (HTTPException 400
                 ("format (" ++ str_of_optional mtype ++ ") is not supported"))).
Proof.
  intros Habs Hw Hp.
  destruct (aiof_write_lookup _ _ _ _ Hw) as [Hcwd _].
  assert (Habs1 : isabs (cwd w1) = true) by by rewrite Hcwd.
  set (name := artifact_name r file) in *.
  set (a := path_join (cwd w1) name) in *.
  split; intros Ha.
  - destruct (accessible_file _ _ _ Ha) as (d & m & Hl & _).
    destruct (get_meta_unsupported a sb (log (EvPrint a) w1) mtype) as [line Hg].
    { rewrite <- Ha. apply (accessible_abspath w1 name R_OK Habs1). }
    { exact Hp. }
    unfold show. fold name. rewrite (bind_ok _ _ _ _ _ Hw).
    unfold try_finally, try_except, bind, os_path_abspath, print. cbv beta iota.
    fold a. change (path_join (cwd (log (EvPrint a) w1)) name) with a.
    rewrite Hg. unfold raise, os_remove.
    match goal with
    | |- context [lookup_path ?w0 name] =>
        change (lookup_path w0 name) with (lookup_path w1 name)
    end.
    by rewrite Hl.
  - destruct (clean_meta_unsupported a lw true sb policy
                (set_running_in WorkerProcess w1) mtype) as [line Hg].
    { rewrite <- Ha. apply (accessible_abspath w1 name _ Habs1). }
    { exact Hp. }
    unfold clean. fold name. rewrite (bind_ok _ _ _ _ _ Hw).
    destruct (os_path_splitext (upload_filename file)) as [prefix extension].
    unfold try_finally, try_except, bind, os_path_abspath, run_in_executor.
    cbv beta iota. fold a. rewrite Hg. unfold raise.
    match goal with
    | |- context [clean_finally name ?w0] =>
        destruct (clean_finally_returns name w0) as [w4 ->]
    end.
    done.
Qed.

(** ** When the accessibility check fails *)

Lemma contains_abs_path s p :
  no_slash s = true -> isabs p = true -> contains s p = false.
Proof.
  intros Hs Hp. destruct p as [|c p]; [done|]. simpl in Hp.
  induction s as [|x s IH]; [done|].
  simpl in Hs. apply andb_prop in Hs as [Hx Hs].
  simpl. rewrite (IH Hs), orb_false_r.
  destruct (Ascii.ascii_dec c x) as [->|]; [|done].
  by rewrite Hp in Hx.
Qed.

Lemma get_meta_check_failed filename sb w :
  accessible w filename R_OK = false ->
  exists line,
    get_meta category_is_C libmat2 filename sb w
    = (Raise (HTTPException 500 "File error"), log (EvPrint line) w).
Proof.
  intros Ha. destruct (check_file_false _ _ _ Ha) as [line Hc].
  exists line. unfold get_meta. by rewrite (bind_ok _ _ _ _ _ Hc).
Qed.

Lemma clean_meta_check_failed (filename : string) (lw inplace sb : bool)
    (policy : UnknownMemberPolicy) (w : world) :
  accessible w filename (if inplace then Z.lor R_OK W_OK else R_OK) = false ->
  exists line,
    clean_meta category_is_C libmat2 filename lw inplace sb policy w
    = (Ok false, log (EvPrint line) w).
Proof.
  intros Ha. destruct (check_file_false _ _ _ Ha) as [line Hc].
  exists line. unfold clean_meta. by rewrite (bind_ok _ _ _ _ _ Hc).
Qed.

(** C2 (as the code has it).  When the stored upload fails the accessibility
    check, [/show/] raises an [HTTPException] of status 500 with the detail
    [File error], while [/clean/], whose worker reports the failure as
    [False], raises an [HTTPException] of status 400 with the detail
    [Failed to remove metadata].  Neither detail contains an absolute path. *)
Theorem check_failure_responses
    (file : UploadFile) (lw sb : bool) (policy : UnknownMemberPolicy) (r : Z)
    (w w1 : world) :
  isabs (cwd w) = true ->
  aiof_write (artifact_name r file) (upload_body file) w = (Ok tt, w1) ->
  (accessible w1 (artifact_name r file) R_OK = false ->
   fst (show category_is_C libmat2 file sb r w)
   = Raise (HTTPException 500 "File error"))
  /\ (accessible w1 (artifact_name r file) (Z.lor R_OK W_OK) = false ->
      fst (clean category_is_C libmat2 file lw policy sb r w)
      = Raise (HTTPException 400 "Failed to remove metadata"))
  /\ (forall p, isabs p = true ->
        contains "File error" p = false
        /\ contains "Failed to remove metadata" p = false).
Proof.
  intros Habs Hw.
  destruct (aiof_write_lookup _ _ _ _ Hw) as [Hcwd [m Hl]].
  assert (Habs1 : isabs (cwd w1) = true) by by rewrite Hcwd.
  set (name := artifact_name r file) in *.
  set (a := path_join (cwd w1) name) in *.
  split_and!.
  - intros Ha.
    destruct (get_meta_check_failed a sb (log (EvPrint a) w1)) as [line Hg].
    { rewrite <- Ha. apply (accessible_abspath w1 name R_OK Habs1). }
    unfold show. fold name. rewrite (bind_ok _ _ _ _ _ Hw).
    unfold try_finally, try_except, bind, os_path_abspath, print. cbv beta iota.
    fold a. change (path_join (cwd (log (EvPrint a) w1)) name) with a.
    rewrite Hg. unfold raise, os_remove.
    match goal with
    | |- context [lookup_path ?w0 name] =>
        change (lookup_path w0 name) with (lookup_path w1 name)
    end.
    by rewrite Hl.
  - intros Ha.
    destruct (clean_meta_check_failed a lw true sb policy
                (set_running_in WorkerProcess w1)) as [line Hg].
    { rewrite <- Ha. apply (accessible_abspath w1 name _ Habs1). }
    unfold clean. fold name. rewrite (bind_ok _ _ _ _ _ Hw).
    destruct (os_path_splitext (upload_filename file)) as [prefix extension].
    unfold try_finally, try_except, bind, os_path_abspath, run_in_executor.
    cbv beta iota. fold a. rewrite Hg. unfold ret.
    match goal with
    | |- context [clean_finally name ?w0] =>
        destruct (clean_finally_returns name w0) as [w4 ->]
    end.
    done.
  - intros p Hp. split; by apply contains_abs_path.
Qed.

(** ** The name of the artifact *)

Lemma no_slash_app a b : no_slash (a ++ b) = no_slash a && no_slash b.
Proof. induction a as [|x a IH]; [done|]. simpl. by rewrite IH, andb_assoc. Qed.

Lemma hex_digit_no_slash d : (0 <= d < 16)%Z -> is_slash (hex_digit d) = false.
Proof.
  intros H.
  assert (d = 0 \/ d = 1 \/ d = 2 \/ d = 3 \/ d = 4 \/ d = 5 \/ d = 6 \/ d = 7
          \/ d = 8 \/ d = 9 \/ d = 10 \/ d = 11 \/ d = 12 \/ d = 13 \/ d = 14
          \/ d = 15)%Z as Hd by lia.
  repeat (destruct Hd as [->|Hd]; [reflexivity|]). by subst.
Qed.

Lemma no_slash_hex n v : no_slash (hex n v) = true.
Proof.
  induction n as [|n IH]; [done|]. simpl. rewrite IH, andb_true_r.
  rewrite hex_digit_no_slash; [done|].
  change 15%Z with (Z.ones 4). rewrite Z.land_ones by lia.
  apply Z.mod_pos_bound. lia.
Qed.

Lemma no_slash_uuid_str i : no_slash (uuid_str i) = true.
Proof. unfold uuid_str. by rewrite !no_slash_app, !no_slash_hex. Qed.

Lemma no_slash_not_abs s : no_slash s = true -> isabs s = false.
Proof. destruct s as [|c s]; [done|]. simpl. by destruct (is_slash c). Qed.

Lemma split_at_last_slash_cons c r :
  split_at_last_slash (String c r)
  = let (h, t) := split_at_last_slash r in
    match h with
    | EmptyString =>
        if is_slash c then (String c EmptyString, r) else (EmptyString, String c r)
    | String _ _ => (String c h, t)
    end.
Proof. reflexivity. Qed.

Lemma split_at_last_slash_app pre n :
  no_slash n = true -> split_at_last_slash (pre ++ "/" ++ n) = (pre ++ "/", n).
Proof.
  intros Hn.
  assert (H0 : split_at_last_slash n = (EmptyString, n)).
  { clear pre. induction n as [|x n IH]; [done|].
    simpl in Hn. apply andb_prop in Hn as [Hx Hn]. simpl. rewrite (IH Hn).
    by destruct (is_slash x). }
  induction pre as [|x pre IH].
  - change (EmptyString ++ "/" ++ n) with (String "/"%char n).
    by rewrite split_at_last_slash_cons, H0.
  - change (String x pre ++ "/" ++ n) with (String x (pre ++ "/" ++ n)).
    rewrite split_at_last_slash_cons, IH. by destruct pre.
Qed.

Lemma rstrip_slash_snoc s : rstrip_slash (s ++ "/") = rstrip_slash s.
Proof. induction s as [|x s IH]; [done|]. simpl. simpl in IH. by rewrite IH. Qed.

Lemma rstrip_slash_id s : ends_with_slash s = false -> rstrip_slash s = s.
Proof.
  induction s as [|x s IH]; [done|]. intros H.
  destruct s as [|y s].
  - simpl in *. by rewrite H.
  - change (ends_with_slash (String x (String y s))) with (ends_with_slash (String y s)) in H.
    change (rstrip_slash (String x (String y s)))
      with (match rstrip_slash (String y s) with
            | EmptyString => if is_slash x then EmptyString else String x EmptyString
            | String _ _ as r' => String x r'
            end).
    by rewrite (IH H).
Qed.

Lemma dirname_under_cwd c n :
  wf_cwd c = true -> no_slash n = true ->
  os_path_dirname (path_join c n) = c /\ os_path_basename (path_join c n) = n.
Proof.
  intros Hc Hn. unfold wf_cwd in Hc. apply andb_prop in Hc as [Habs Hc].
  unfold path_join. rewrite (no_slash_not_abs _ Hn).
  destruct c as [|x c]; [done|].
  change ((String.length (String x c) =? 0)%nat) with false. cbn [orb].
  destruct (ends_with_slash (String x c)) eqn:He.
  - cbn [negb orb] in Hc. apply String.eqb_eq in Hc as [= -> ->].
    change ("/" ++ n) with (EmptyString ++ "/" ++ n).
    unfold os_path_dirname, os_path_basename.
    by rewrite split_at_last_slash_app.
  - unfold os_path_dirname, os_path_basename.
    rewrite split_at_last_slash_app by done. simpl fst. simpl snd.
    rewrite rstrip_slash_snoc, rstrip_slash_id by done. done.
Qed.

(** C4 (as the code has it).  The upload of a request with client filename
    [f] is stored at the path obtained by resolving, against the working
    directory, the name made of the printed UUID immediately followed by [f],
    with nothing in between; when [f] has no path separator, this is a file
    directly under the working directory. *)
Theorem artifact_is_uuid_then_filename (file : UploadFile) (r : Z) (w w1 : world) :
  wf_cwd (cwd w) = true ->
  aiof_write (artifact_name r file) (upload_body file) w = (Ok tt, w1) ->
  artifact_name r file = uuid_str (uuid4_int r) ++ upload_filename file
  /\ (exists m,
        fs w1 !! path_join (cwd w) (artifact_name r file)
        = Some (File (upload_body file) m))
  /\ (no_slash (upload_filename file) = true ->
      os_path_dirname (path_join (cwd w) (artifact_name r file)) = cwd w
      /\ os_path_basename (path_join (cwd w) (artifact_name r file))
         = uuid_str (uuid4_int r) ++ upload_filename file).
Proof.
  intros Hc Hw. split_and!.
  - done.
  - destruct (aiof_write_lookup _ _ _ _ Hw) as [Hcwd [m Hl]].
    exists m. unfold lookup_path in Hl. by rewrite Hcwd in Hl.
  - intros Hf. apply dirname_under_cwd; [done|].
    unfold artifact_name. by rewrite no_slash_app, no_slash_uuid_str, Hf.
Qed.

(** ** A successful cleaning *)

(** C6.  When [remove_all] returns [True], having written its result to the
    output path of the parser and left the original in place, [clean_meta]
    copies the permission bits of the original onto the output file, renames
    the output file over the original path when [inplace] is set, so that the
    original path holds the cleaned bytes, and returns [True]. *)
Theorem clean_meta_installs_output
    (filename : string) (lw inplace sb : bool) (policy : UnknownMemberPolicy)
    (w : world) (p : parser) (mtype : option string) (fs1 : gmap string node)
    (d0 d1 : bytes) (m0 m1 : Z) :
  accessible w filename (if inplace then Z.lor R_OK W_OK else R_OK) = true ->
  engine_get_parser libmat2 (fs w) filename = Ok (Some p, mtype) ->
  engine_remove_all libmat2
    (set_sandbox sb (set_lightweight_cleaning lw (set_unknown_member_policy policy p)))
    (fs w) = (Ok true, fs1) ->
  fs1 !! path_join (cwd w) filename = Some (File d0 m0) ->
  fs1 !! path_join (cwd w) (output_filename p) = Some (File d1 m1) ->
  exists w' : world,
    clean_meta category_is_C libmat2 filename lw inplace sb policy w = (Ok true, w')
    /\ if inplace then
         fs w' !! path_join (cwd w) filename = Some (File d1 (S_IMODE m0))
         /\ (path_join (cwd w) (output_filename p) <> path_join (cwd w) filename ->
             fs w' !! path_join (cwd w) (output_filename p) = None)
       else
         fs w' !! path_join (cwd w) (output_filename p) = Some (File d1 (S_IMODE m0)).
Proof.
  intros Ha Hp Hr Hsrc Hout. unfold clean_meta.
  rewrite (bind_ok _ _ _ _ _ (check_file_true _ _ _ Ha)).
  change (negb true) with false. cbv beta iota.
  unfold bind, try_except, parser_factory_get_parser, p_remove_all. cbv beta.
  rewrite Hp. cbv beta iota.
  change (fs (log (EvGetParser (running_in w) filename) w)) with (fs w).
  rewrite Hr. cbv beta iota.
  unfold shutil_copymode, lookup_path. cbn [fs cwd set_fs log output_filename
    set_sandbox set_lightweight_cleaning set_unknown_member_policy].
  rewrite Hsrc, Hout. cbn [node_mode node_chmod].
  destruct inplace.
  - unfold os_rename, lookup_path. cbn [fs cwd set_fs log].
    rewrite lookup_insert_eq.
    destruct (decide (path_join (cwd w) (output_filename p) = path_join (cwd w) filename))
      as [Heq|Hne].
    + rewrite Heq, lookup_insert_eq. eexists. split; [reflexivity|].
      cbn [fs set_fs]. rewrite lookup_insert_eq. split; [|done].
      rewrite Heq in Hout. congruence.
    + rewrite lookup_insert_ne, Hsrc by done. eexists. split; [reflexivity|].
      cbn [fs set_fs]. rewrite lookup_insert_eq. split; [done|].
      intros _. by rewrite lookup_insert_ne, lookup_delete_eq.
  - eexists. split; [reflexivity|]. cbn [fs set_fs]. by rewrite lookup_insert_eq.
Qed.

End Requests.

(** ** The properties at sample requests *)

Lemma artifact_removed_on_every_exit_witness :
  isabs (cwd srv_world) = true
  /\ fst (aiof_write (artifact_name sample_draw pdf_upload)
            (upload_body pdf_upload) srv_world) = Ok tt
  /\ path_isfile (snd (show no_C pdf_engine pdf_upload true sample_draw srv_world))
       (artifact_name sample_draw pdf_upload) = false
  /\ path_isfile
       (snd (clean no_C pdf_engine pdf_upload false ABORT true sample_draw srv_world))
       (artifact_name sample_draw pdf_upload) = false.
Proof.
  assert (H1 : isabs (cwd srv_world) = true) by reflexivity.
  assert (H2 : fst (aiof_write (artifact_name sample_draw pdf_upload)
                      (upload_body pdf_upload) srv_world) = Ok tt)
    by (vm_compute; reflexivity).
  destruct (artifact_removed_on_every_exit no_C pdf_engine pdf_upload false true
              ABORT sample_draw srv_world H1 H2) as (Hs & Hc & _).
  repeat split; assumption.
Defined.

Lemma cache_delete_file_captures_witness :
  exists (b : BytesIO) (w' : world),
    cache_delete_file "a.pdf" stored_world = (Ok (Some b), w')
    /\ buf b = upload_body pdf_upload /\ pos b = 0
    /\ BytesIO_read b = upload_body pdf_upload
    /\ path_exists w' "a.pdf" = false.
Proof.
  apply (cache_delete_file_captures "a.pdf" stored_world (upload_body pdf_upload) 420);
    vm_compute; reflexivity.
Defined.



Lemma configuration_set_before_engine_call_witness :
  sandbox (set_sandbox true
             (pdf_parser "/srv/12345678-1234-4678-9234-567812345678a.pdf")) = true
  /\ In (EvGetMeta RequestThread
           (set_sandbox true
              (pdf_parser "/srv/12345678-1234-4678-9234-567812345678a.pdf")))
        (new_events srv_world
           (snd (show no_C pdf_engine pdf_upload true sample_draw srv_world))).
Proof.
  destruct (configuration_set_before_engine_call no_C pdf_engine) as (_ & _ & _ & H).
  apply (H pdf_upload true sample_draw srv_world
           (snd (aiof_write (artifact_name sample_draw pdf_upload)
                   (upload_body pdf_upload) srv_world))
           (pdf_parser "/srv/12345678-1234-4678-9234-567812345678a.pdf")
           (Some "application/pdf"));
    vm_compute; reflexivity.
Defined.

Lemma unsupported_format_is_400_witness :
  fst (show no_C pdf_engine garbage_upload true sample_draw srv_world)
  = Raise (HTTPException 400 "format (None) is not supported")
  /\ fst (clean no_C pdf_engine garbage_upload false ABORT true sample_draw srv_world)
     = Raise (HTTPException 400 "format (None) is not supported").
Proof.
  destruct (unsupported_format_is_400 no_C pdf_engine garbage_upload false true ABORT
              sample_draw srv_world
              (snd (aiof_write (artifact_name sample_draw garbage_upload)
                      (upload_body garbage_upload) srv_world))
              None) as [Hs Hc];
    [vm_compute; reflexivity..|].
  split; [apply Hs|apply Hc]; vm_compute; reflexivity.
Defined.

Lemma check_failure_responses_witness :
  fst (show no_C pdf_engine pdf_upload true sample_draw locked_world)
  = Raise (HTTPException 500 "File error")
  /\ fst (clean no_C pdf_engine pdf_upload false ABORT true sample_draw locked_world)
     = Raise (HTTPException 400 "Failed to remove metadata").
Proof.
  destruct (check_failure_responses no_C pdf_engine pdf_upload false true ABORT
              sample_draw locked_world
              (snd (aiof_write (artifact_name sample_draw pdf_upload)
                      (upload_body pdf_upload) locked_world)))
    as (Hs & Hc & _);
    [vm_compute; reflexivity..|].
  split; [apply Hs|apply Hc]; vm_compute; reflexivity.
Defined.

Lemma artifact_is_uuid_then_filename_witness :
  os_path_dirname (path_join (cwd srv_world) (artifact_name sample_draw pdf_upload))
  = "/srv"
  /\ os_path_basename (path_join (cwd srv_world) (artifact_name sample_draw pdf_upload))
     = "12345678-1234-4678-9234-567812345678a.pdf".
Proof.
  destruct (artifact_is_uuid_then_filename pdf_upload sample_draw srv_world
              (snd (aiof_write (artifact_name sample_draw pdf_upload)
                      (upload_body pdf_upload) srv_world)))
    as (_ & _ & H);
    [vm_compute; reflexivity..|].
  destruct H as [Hd Hb]; [reflexivity|].
  split; [exact Hd|]. rewrite Hb. vm_compute. reflexivity.
Defined.

Lemma clean_meta_installs_output_witness :
  exists w' : world,
    clean_meta no_C pdf_engine "/srv/a.pdf" false true true ABORT stored_world
    = (Ok true, w')
    /\ fs w' !! "/srv/a.pdf" = Some (File (upload_body pdf_upload) 420)
    /\ fs w' !! "/srv/a.pdf.cleaned" = None.
Proof.
  destruct (clean_meta_installs_output no_C pdf_engine "/srv/a.pdf" false true true
              ABORT stored_world (pdf_parser "/srv/a.pdf") (Some "application/pdf")
              (<[ "/srv/a.pdf.cleaned" := File (upload_body pdf_upload) 384 ]>
                 (fs stored_world))
              (upload_body pdf_upload) (upload_body pdf_upload) 420 384)
    as (w' & Hrun & Hsrc & Hout);
    [vm_compute; reflexivity..|].
  exists w'. split; [exact Hrun|]. split; [exact Hsrc|].
  apply Hout. vm_compute. discriminate.
Defined.

(** ** Where the code departs from the description *)

(** C2.  Under a umask that leaves new files read-only, the upload of a
    [/clean/] request is stored but fails the read-and-write check; the
    client receives status 400, not a 500-class status. *)
Lemma clean_check_failure_is_400 :
  fst (aiof_write (artifact_name sample_draw pdf_upload) (upload_body pdf_upload)
         readonly_world) = Ok tt
  /\ accessible
       (snd (aiof_write (artifact_name sample_draw pdf_upload)
               (upload_body pdf_upload) readonly_world))
       (artifact_name sample_draw pdf_upload) (Z.lor R_OK W_OK) = false
  /\ client_status
       (fst (clean no_C pdf_engine pdf_upload false ABORT true sample_draw
               readonly_world)) = 400%Z
  /\ client_detail
       (fst (clean no_C pdf_engine pdf_upload false ABORT true sample_draw
               readonly_world)) = "Failed to remove metadata"
  /\ ~ (500 <= client_status
                 (fst (clean no_C pdf_engine pdf_upload false ABORT true sample_draw
                         readonly_world)) < 600)%Z.
Proof.
  assert (H : client_status
                (fst (clean no_C pdf_engine pdf_upload false ABORT true sample_draw
                        readonly_world)) = 400%Z) by (vm_compute; reflexivity).
  split_and!; [vm_compute; reflexivity..|exact H|vm_compute; reflexivity|rewrite H; lia].
Qed.

(** C3.  A [/show/] request handled on the request thread makes its
    extract-metadata call on that thread, not in a process of the pool. *)
Lemma show_runs_engine_on_request_thread :
  running_in srv_world = RequestThread
  /\ In (EvGetMeta RequestThread
           (set_sandbox true
              (pdf_parser "/srv/12345678-1234-4678-9234-567812345678a.pdf")))
        (new_events srv_world
           (snd (show no_C pdf_engine pdf_upload true sample_draw srv_world)))
  /\ ~ Forall (fun e => event_ctx e = None \/ event_ctx e = Some WorkerProcess)
         (new_events srv_world
            (snd (show no_C pdf_engine pdf_upload true sample_draw srv_world))).
Proof.
  assert (Hin : In (EvGetMeta RequestThread
                      (set_sandbox true
                         (pdf_parser "/srv/12345678-1234-4678-9234-567812345678a.pdf")))
                   (new_events srv_world
                      (snd (show no_C pdf_engine pdf_upload true sample_draw srv_world)))).
  { vm_compute. right. right. left. reflexivity. }
  split_and!; [reflexivity|exact Hin|].
  intros HF. rewrite Forall_forall in HF. apply list_elem_of_In in Hin.
  destruct (HF _ Hin) as [H|H]; discriminate H.
Qed.

(** C4.  The stored name has no separator between the UUID and the client
    filename: nothing exists at the path with the dash. *)
Lemma artifact_name_has_no_separator :
  artifact_name sample_draw pdf_upload = "12345678-1234-4678-9234-567812345678a.pdf"
  /\ artifact_name sample_draw pdf_upload
     <> uuid_str (uuid4_int sample_draw) ++ "-" ++ upload_filename pdf_upload
  /\ fs (snd (aiof_write (artifact_name sample_draw pdf_upload)
                (upload_body pdf_upload) srv_world))
     !! "/srv/12345678-1234-4678-9234-567812345678a.pdf"
     = Some (File (upload_body pdf_upload) 420)
  /\ fs (snd (aiof_write (artifact_name sample_draw pdf_upload)
                (upload_body pdf_upload) srv_world))
     !! "/srv/12345678-1234-4678-9234-567812345678-a.pdf" = None.
Proof.
  split_and!; [vm_compute; reflexivity| |vm_compute; reflexivity..].
  vm_compute. discriminate.
Qed.

(** * Further properties of the pipeline *)

Section Behaviour.

Variable category_is_C : ascii -> bool.
Variable libmat2 : engine.

(** ** How the handlers end *)

(** The outcome of [/show/], from the outcome of [get_meta] and from what
    the [finally] clause finds at the artifact path. *)
Lemma show_result (file : UploadFile) (sb : bool) (r : Z) (w w1 w2 : world)
    (res : result metadata) :
  aiof_write (artifact_name r file) (upload_body file) w = (Ok tt, w1) ->
  get_meta category_is_C libmat2 (path_join (cwd w1) (artifact_name r file)) sb
    (log (EvPrint (path_join (cwd w1) (artifact_name r file))) w1) = (res, w2) ->
  fst (show category_is_C libmat2 file sb r w)
  = match lookup_path w2 (artifact_name r file) with
    | Some (File _ _) =>
        match res with
        | Ok md => Ok (JSONResponse md "text/plain")
        | Raise e => Raise (show_raises e)
        end
    | Some (Dir _) => Raise (OSError IsADirectoryError (artifact_name r file))
    | None => Raise (OSError FileNotFoundError (artifact_name r file))
    end.
Proof.
  intros Hw Hg. set (name := artifact_name r file) in *.
  set (a := path_join (cwd w1) name) in *.
  unfold show. fold name. rewrite (bind_ok _ _ _ _ _ Hw).
  unfold try_finally, try_except, bind, os_path_abspath, print. cbv beta iota.
  fold a. change (path_join (cwd (log (EvPrint a) w1)) name) with a.
  rewrite Hg. unfold os_remove.
  destruct res as [md|e].
  - unfold ret. destruct (lookup_path w2 name) as [[d m|m]|]; done.
  - destruct e; unfold is_Exception, show_raises, raise, __print_without_chars, print;
      cbv beta iota;
      repeat match goal with
             | |- context [lookup_path (log ?ev w2) name] =>
                 change (lookup_path (log ev w2) name) with (lookup_path w2 name)
             end;
      destruct (lookup_path w2 name) as [[d m|m]|]; reflexivity.
Qed.

Lemma show_engine_result (file : UploadFile) (sb : bool) (r : Z) (w w1 : world)
    (p : parser) (mtype : option string) (res : result metadata)
    (fs' : gmap string node) :
  isabs (cwd w) = true ->
  aiof_write (artifact_name r file) (upload_body file) w = (Ok tt, w1) ->
  accessible w1 (artifact_name r file) R_OK = true ->
  engine_get_parser libmat2 (fs w1) (path_join (cwd w1) (artifact_name r file))
    = Ok (Some p, mtype) ->
  engine_get_meta libmat2 (set_sandbox sb p) (fs w1) = (res, fs') ->
  fst (show category_is_C libmat2 file sb r w)
  = match fs' !! path_join (cwd w1) (artifact_name r file) with
    | Some (File _ _) =>
        match res with
        | Ok md => Ok (JSONResponse md "text/plain")
        | Raise e => Raise (show_raises e)
        end
    | Some (Dir _) => Raise (OSError IsADirectoryError (artifact_name r file))
    | None => Raise (OSError FileNotFoundError (artifact_name r file))
    end.
Proof.
  intros Habs Hw Ha Hp Hm.
  destruct (aiof_write_lookup _ _ _ _ Hw) as [Hcwd _].
  assert (Habs1 : isabs (cwd w1) = true) by by rewrite Hcwd.
  set (name := artifact_name r file) in *.
  set (a := path_join (cwd w1) name) in *.
  erewrite show_result; [|exact Hw|].
  2:{ fold name. fold a. rewrite (get_meta_resolved category_is_C libmat2 a sb _ p mtype).
      - unfold p_get_meta. cbn [fs log]. rewrite Hm. reflexivity.
      - rewrite <- Ha. apply (accessible_abspath w1 name R_OK Habs1).
      - exact Hp. }
  reflexivity.
Qed.

(** X1.  When the stored upload passes the check, a parser resolves and its
    [get_meta] returns, leaving the artifact in place, [/show/] answers with
    that metadata as a JSON response of media type [text/plain]. *)
Theorem show_returns_engine_metadata (file : UploadFile) (sb : bool) (r : Z)
    (w w1 : world) (p : parser) (mtype : option string) (md : metadata)
    (fs' : gmap string node) (d : bytes) (m : Z) :
  isabs (cwd w) = true ->
  aiof_write (artifact_name r file) (upload_body file) w = (Ok tt, w1) ->
  accessible w1 (artifact_name r file) R_OK = true ->
  engine_get_parser libmat2 (fs w1) (path_join (cwd w1) (artifact_name r file))
    = Ok (Some p, mtype) ->
  engine_get_meta libmat2 (set_sandbox sb p) (fs w1) = (Ok md, fs') ->
  fs' !! path_join (cwd w1) (artifact_name r file) = Some (File d m) ->
  fst (show category_is_C libmat2 file sb r w) = Ok (JSONResponse md "text/plain").
Proof.
  intros Habs Hw Ha Hp Hm Hf.
  rewrite (show_engine_result _ _ _ _ _ _ _ _ _ Habs Hw Ha Hp Hm). by rewrite Hf.
Qed.

(** X2.  When the engine's [get_meta] raises, leaving the artifact in
    place, [/show/] answers with status 500 and the detail
    [Metadata cannot be extracted] for every exception that derives from
    [Exception], except that an [HTTPException] passes unchanged; an
    exception outside [Exception] passes unchanged too. *)
Theorem show_maps_engine_failure (file : UploadFile) (sb : bool) (r : Z)
    (w w1 : world) (p : parser) (mtype : option string) (e : exn)
    (fs' : gmap string node) (d : bytes) (m : Z) :
  isabs (cwd w) = true ->
  aiof_write (artifact_name r file) (upload_body file) w = (Ok tt, w1) ->
  accessible w1 (artifact_name r file) R_OK = true ->
  engine_get_parser libmat2 (fs w1) (path_join (cwd w1) (artifact_name r file))
    = Ok (Some p, mtype) ->
  engine_get_meta libmat2 (set_sandbox sb p) (fs w1) = (Raise e, fs') ->
  fs' !! path_join (cwd w1) (artifact_name r file) = Some (File d m) ->
  fst (show category_is_C libmat2 file sb r w) = Raise (show_raises e)
  /\ (is_Exception e = true ->
      (forall s dt, e <> HTTPException s dt) ->
      fst (show category_is_C libmat2 file sb r w)
      = Raise (HTTPException 500 "Metadata cannot be extracted")).
Proof.
  intros Habs Hw Ha Hp Hm Hf.
  rewrite (show_engine_result _ _ _ _ _ _ _ _ _ Habs Hw Ha Hp Hm), Hf.
  split; [done|]. intros He Hn. destruct e; try done. by destruct (Hn status_code detail).
Qed.

(** X3.  The [finally] clause of [/show/] removes the artifact without
    looking first: when the artifact is gone after the engine call, the
    handler ends in [FileNotFoundError], also when the metadata had been
    extracted. *)
Theorem show_fails_when_artifact_is_lost (file : UploadFile) (sb : bool) (r : Z)
    (w w1 : world) (p : parser) (mtype : option string) (res : result metadata)
    (fs' : gmap string node) :
  isabs (cwd w) = true ->
  aiof_write (artifact_name r file) (upload_body file) w = (Ok tt, w1) ->
  accessible w1 (artifact_name r file) R_OK = true ->
  engine_get_parser libmat2 (fs w1) (path_join (cwd w1) (artifact_name r file))
    = Ok (Some p, mtype) ->
  engine_get_meta libmat2 (set_sandbox sb p) (fs w1) = (res, fs') ->
  fs' !! path_join (cwd w1) (artifact_name r file) = None ->
  fst (show category_is_C libmat2 file sb r w)
  = Raise (OSError FileNotFoundError (artifact_name r file)).
Proof.
  intros Habs Hw Ha Hp Hm Hf.
  rewrite (show_engine_result _ _ _ _ _ _ _ _ _ Habs Hw Ha Hp Hm). by rewrite Hf.
Qed.

(** The outcome of [/clean/], from the outcome of the worker call. *)
Lemma clean_result (file : UploadFile) (lw sb : bool) (policy : UnknownMemberPolicy)
    (r : Z) (w w1 w2 : world) (res : result bool) :
  aiof_write (artifact_name r file) (upload_body file) w = (Ok tt, w1) ->
  run_in_executor
    (clean_meta category_is_C libmat2 (path_join (cwd w1) (artifact_name r file))
       lw true sb policy) w1 = (res, w2) ->
  clean category_is_C libmat2 file lw policy sb r w
  = match res with
    | Ok true =>
        match cache_delete_file (artifact_name r file) w2 with
        | (Ok (Some d), w3) =>
            (match headers_error (download_headers (upload_filename file)) with
             | Some msg => Raise (HTTPException 400 msg)
             | None =>
                 Ok (StreamingResponse d "application/octet-stream"
                       (download_headers (upload_filename file)))
             end,
             snd (clean_finally (artifact_name r file) w3))
        | (Ok None, w3) =>
            (Raise (HTTPException 400 "Failed to remove metadata"),
             snd (clean_finally (artifact_name r file) w3))
        | (Raise e, w3) =>
            (Raise (clean_raises e), snd (clean_finally (artifact_name r file) w3))
        end
    | Ok false =>
        (Raise (HTTPException 400 "Failed to remove metadata"),
         snd (clean_finally (artifact_name r file) w2))
    | Raise e =>
        (Raise (clean_raises e), snd (clean_finally (artifact_name r file) w2))
    end.
Proof.
  intros Hw Hc. set (name := artifact_name r file) in *.
  unfold clean, download_headers. fold name. rewrite (bind_ok _ _ _ _ _ Hw).
  destruct (os_path_splitext (upload_filename file)) as [prefix extension].
  unfold try_finally, try_except, bind, os_path_abspath, StreamingResponse_init.
  cbv beta iota. rewrite Hc.
  assert (Hfin : forall (A : Type) (x : result A) (w0 : world),
             (let (r1, w'') := clean_finally name w0 in
              match r1 with
              | Ok _ => (x, w'')
              | Raise e0 => (Raise e0, w'')
              end) = (x, snd (clean_finally name w0))).
  { intros A x w0. by destruct (clean_finally_returns name w0) as [w4 ->]. }
  destruct res as [[|]|e]; cbv beta iota.
  - destruct (cache_delete_file name w2) as [[[d|]|e] w3]; cbv beta iota.
    + destruct (headers_error _) as [msg|]; unfold ret, raise; cbv beta iota;
        by rewrite Hfin.
    + unfold ret. by rewrite Hfin.
    + destruct e; unfold raise; by rewrite Hfin.
  - unfold ret. by rewrite Hfin.
  - destruct e; unfold raise; by rewrite Hfin.
Qed.

Lemma clean_finally_fs p w :
  isabs (cwd w) = true ->
  fs (snd (clean_finally p w))
  = match lookup_path w p with
    | Some (File _ _) => delete (path_join (cwd w) p) (fs w)
    | _ => fs w
    end.
Proof.
  intros Habs.
  unfold clean_finally, bind, os_path_abspath, os_path_isfile, os_remove, path_isfile.
  simpl. rewrite lookup_path_abspath by done.
  destruct (lookup_path w p) as [[d m|m]|] eqn:E; simpl; try done.
  rewrite lookup_path_abspath, E by done. simpl. by rewrite path_join_idem.
Qed.

Lemma run_in_executor_run {A} (f : M A) w res w' :
  f (set_running_in WorkerProcess w) = (res, w') ->
  run_in_executor f w = (res, set_running_in (running_in w) w').
Proof. intros H. unfold run_in_executor. by rewrite H. Qed.

(** ** [clean_meta] once a parser resolved *)

Ltac clean_meta_prefix Ha Hp Hr :=
  unfold clean_meta;
  rewrite (bind_ok _ _ _ _ _ (check_file_true _ _ _ _ Ha));
  change (negb true) with false; cbv beta iota;
  rewrite (get_parser_resolved _ _ _ _ _ _ Hp); cbv beta iota;
  unfold try_except, bind, p_remove_all; cbv beta;
  cbn [fs log]; rewrite Hr; cbv beta iota.

Lemma clean_meta_engine_raises (filename : string) (lw inplace sb : bool)
    (policy : UnknownMemberPolicy) (w : world) (p : parser) (mtype : option string)
    (e : exn) (fs' : gmap string node) :
  accessible w filename (if inplace then Z.lor R_OK W_OK else R_OK) = true ->
  engine_get_parser libmat2 (fs w) filename = Ok (Some p, mtype) ->
  engine_remove_all libmat2
    (set_sandbox sb (set_lightweight_cleaning lw (set_unknown_member_policy policy p)))
    (fs w) = (Raise e, fs') ->
  exists w',
    clean_meta category_is_C libmat2 filename lw inplace sb policy w
    = (Raise (clean_meta_raises e), w')
    /\ fs w' = fs' /\ cwd w' = cwd w.
Proof.
  intros Ha Hp Hr. clean_meta_prefix Ha Hp Hr.
  destruct e; simpl; eexists; (split; [reflexivity|done]).
Qed.

Lemma clean_meta_engine_false (filename : string) (lw inplace sb : bool)
    (policy : UnknownMemberPolicy) (w : world) (p : parser) (mtype : option string)
    (fs' : gmap string node) :
  accessible w filename (if inplace then Z.lor R_OK W_OK else R_OK) = true ->
  engine_get_parser libmat2 (fs w) filename = Ok (Some p, mtype) ->
  engine_remove_all libmat2
    (set_sandbox sb (set_lightweight_cleaning lw (set_unknown_member_policy policy p)))
    (fs w) = (Ok false, fs') ->
  exists w',
    clean_meta category_is_C libmat2 filename lw inplace sb policy w = (Ok false, w')
    /\ fs w' = fs' /\ cwd w' = cwd w.
Proof.
  intros Ha Hp Hr. clean_meta_prefix Ha Hp Hr.
  simpl. eexists. split; [reflexivity|done].
Qed.

Lemma clean_meta_output_missing (filename : string) (lw inplace sb : bool)
    (policy : UnknownMemberPolicy) (w : world) (p : parser) (mtype : option string)
    (fs' : gmap string node) (n : node) :
  accessible w filename (if inplace then Z.lor R_OK W_OK else R_OK) = true ->
  engine_get_parser libmat2 (fs w) filename = Ok (Some p, mtype) ->
  engine_remove_all libmat2
    (set_sandbox sb (set_lightweight_cleaning lw (set_unknown_member_policy policy p)))
    (fs w) = (Ok true, fs') ->
  fs' !! path_join (cwd w) filename = Some n ->
  fs' !! path_join (cwd w) (output_filename p) = None ->
  exists w',
    clean_meta category_is_C libmat2 filename lw inplace sb policy w
    = (Raise (OSError FileNotFoundError (output_filename p)), w')
    /\ fs w' = fs' /\ cwd w' = cwd w.
Proof.
  intros Ha Hp Hr Hsrc Hout. clean_meta_prefix Ha Hp Hr.
  unfold shutil_copymode, lookup_path.
  cbn [fs cwd set_fs log output_filename set_sandbox set_lightweight_cleaning
         set_unknown_member_policy].
  rewrite Hsrc, Hout. simpl. eexists. split; [reflexivity|done].
Qed.

Lemma clean_meta_installed (filename : string) (lw sb : bool)
    (policy : UnknownMemberPolicy) (w : world) (p : parser) (mtype : option string)
    (fs1 : gmap string node) (d0 d1 : bytes) (m0 m1 : Z) :
  accessible w filename (Z.lor R_OK W_OK) = true ->
  engine_get_parser libmat2 (fs w) filename = Ok (Some p, mtype) ->
  engine_remove_all libmat2
    (set_sandbox sb (set_lightweight_cleaning lw (set_unknown_member_policy policy p)))
    (fs w) = (Ok true, fs1) ->
  fs1 !! path_join (cwd w) filename = Some (File d0 m0) ->
  fs1 !! path_join (cwd w) (output_filename p) = Some (File d1 m1) ->
  exists w',
    clean_meta category_is_C libmat2 filename lw true sb policy w = (Ok true, w')
    /\ fs w'
       = <[path_join (cwd w) filename := File d1 (S_IMODE m0)]>
           (delete (path_join (cwd w) (output_filename p)) fs1)
    /\ cwd w' = cwd w.
Proof.
  intros Ha Hp Hr Hsrc Hout. clean_meta_prefix Ha Hp Hr.
  unfold shutil_copymode, lookup_path.
  cbn [fs cwd set_fs log output_filename set_sandbox set_lightweight_cleaning
         set_unknown_member_policy].
  rewrite Hsrc, Hout. cbn [node_mode node_chmod].
  unfold os_rename, lookup_path. cbn [fs cwd set_fs log].
  rewrite lookup_insert_eq.
  assert (Hd : <[path_join (cwd w) (output_filename p) := File d1 (S_IMODE m0)]> fs1
               !! path_join (cwd w) filename
               = Some (File (if decide (path_join (cwd w) (output_filename p)
                                         = path_join (cwd w) filename)
                             then d1 else d0)
                            (if decide (path_join (cwd w) (output_filename p)
                                        = path_join (cwd w) filename)
                             then S_IMODE m0 else m0))).
  { case_decide as Heq.
    - by rewrite Heq, lookup_insert_eq.
    - by rewrite lookup_insert_ne. }
  rewrite Hd. simpl. eexists. split; [reflexivity|]. split; [|done].
  cbn [fs set_fs]. by rewrite delete_insert_eq.
Qed.

Lemma get_meta_resolution_error (filename : string) (sb : bool) (w : world)
    (msg : string) :
  accessible w filename R_OK = true ->
  engine_get_parser libmat2 (fs w) filename = Raise (ValueError msg) ->
  exists w',
    get_meta category_is_C libmat2 filename sb w
    = (Raise (HTTPException 400 ("something went wrong during processing: " ++ msg)),
       w')
    /\ fs w' = fs w /\ cwd w' = cwd w.
Proof.
  intros Ha Hp. unfold get_meta.
  rewrite (bind_ok _ _ _ _ _ (check_file_true _ _ _ _ Ha)).
  change (negb true) with false. cbv beta iota.
  unfold bind, try_except, parser_factory_get_parser, __print_without_chars, print.
  cbv beta. rewrite Hp. cbv beta iota. eexists. split; [reflexivity|split; reflexivity].
Qed.

Lemma clean_meta_resolution_error (filename : string) (lw inplace sb : bool)
    (policy : UnknownMemberPolicy) (w : world) (msg : string) :
  accessible w filename (if inplace then Z.lor R_OK W_OK else R_OK) = true ->
  engine_get_parser libmat2 (fs w) filename = Raise (ValueError msg) ->
  exists w',
    clean_meta category_is_C libmat2 filename lw inplace sb policy w
    = (Raise (ValueError ("something went wrong during cleaning: " ++ msg)), w')
    /\ fs w' = fs w /\ cwd w' = cwd w.
Proof.
  intros Ha Hp. unfold clean_meta.
  rewrite (bind_ok _ _ _ _ _ (check_file_true _ _ _ _ Ha)).
  change (negb true) with false. cbv beta iota.
  unfold bind, try_except, parser_factory_get_parser, __print_without_chars, print.
  cbv beta. rewrite Hp. cbv beta iota. eexists. split; [reflexivity|split; reflexivity].
Qed.

(** The worker's view of the stored upload. *)
Lemma worker_accessible (name : string) (mode : Z) (w1 : world) :
  isabs (cwd w1) = true ->
  accessible w1 name mode = true ->
  accessible (set_running_in WorkerProcess w1) (path_join (cwd w1) name) mode = true.
Proof. intros Habs Ha. rewrite <- Ha. apply (accessible_abspath w1 name mode Habs). Qed.

(** X4.  When parser resolution raises [ValueError] on the stored upload,
    both flows answer with status 400: [/show/] with the detail
    [something went wrong during processing: ] followed by the message of
    the exception, [/clean/] with [something went wrong during cleaning: ]
    followed by it. *)
Theorem resolution_error_is_400 (file : UploadFile) (lw sb : bool)
    (policy : UnknownMemberPolicy) (r : Z) (w w1 : world) (msg : string) :
  isabs (cwd w) = true ->
  aiof_write (artifact_name r file) (upload_body file) w = (Ok tt, w1) ->
  engine_get_parser libmat2 (fs w1) (path_join (cwd w1) (artifact_name r file))
    = Raise (ValueError msg) ->
  (accessible w1 (artifact_name r file) R_OK = true ->
   fst (show category_is_C libmat2 file sb r w)
   = Raise (HTTPException 400 ("something went wrong during processing: " ++ msg)))
  /\ (accessible w1 (artifact_name r file) (Z.lor R_OK W_OK) = true ->
      fst (clean category_is_C libmat2 file lw policy sb r w)
      = Raise (HTTPException 400 ("something went wrong during cleaning: " ++ msg))).
Proof.
  intros Habs Hw Hp.
  destruct (aiof_write_lookup _ _ _ _ Hw) as [Hcwd _].
  assert (Habs1 : isabs (cwd w1) = true) by by rewrite Hcwd.
  set (name := artifact_name r file) in *.
  set (a := path_join (cwd w1) name) in *.
  split; intros Ha.
  - destruct (accessible_file _ _ _ Ha) as (d & m & Hl & _).
    destruct (get_meta_resolution_error a sb (log (EvPrint a) w1) msg)
      as (w2 & Hg & Hfs & Hc); [|exact Hp|].
    { rewrite <- Ha. apply (accessible_abspath w1 name R_OK Habs1). }
    assert (Hl2 : lookup_path w2 name = Some (File d m)).
    { rewrite <- Hl. unfold lookup_path. by rewrite Hfs, Hc. }
    rewrite (show_result _ _ _ _ _ _ _ Hw Hg). fold name. by rewrite Hl2.
  - destruct (clean_meta_resolution_error a lw true sb policy
                (set_running_in WorkerProcess w1) msg) as (w2 & Hg & _);
      [by apply worker_accessible|exact Hp|].
    by rewrite (clean_result _ _ _ _ _ _ _ _ _ Hw (run_in_executor_run _ _ _ _ Hg)).
Qed.

(** X5.  When [remove_all] raises, [/clean/] answers with status 400 and
    the message of the exception if it is a [ValueError], with status 400
    and [can't be cleaned: ] followed by the message if it is a
    [RuntimeError], and lets any other exception pass unchanged. *)
Theorem clean_maps_engine_failure (file : UploadFile) (lw sb : bool)
    (policy : UnknownMemberPolicy) (r : Z) (w w1 : world) (p : parser)
    (mtype : option string) (e : exn) (fs' : gmap string node) :
  isabs (cwd w) = true ->
  aiof_write (artifact_name r file) (upload_body file) w = (Ok tt, w1) ->
  accessible w1 (artifact_name r file) (Z.lor R_OK W_OK) = true ->
  engine_get_parser libmat2 (fs w1) (path_join (cwd w1) (artifact_name r file))
    = Ok (Some p, mtype) ->
  engine_remove_all libmat2
    (set_sandbox sb (set_lightweight_cleaning lw (set_unknown_member_policy policy p)))
    (fs w1) = (Raise e, fs') ->
  fst (clean category_is_C libmat2 file lw policy sb r w)
  = Raise (clean_raises (clean_meta_raises e))
  /\ (forall msg, e = RuntimeError msg ->
        fst (clean category_is_C libmat2 file lw policy sb r w)
        = Raise (HTTPException 400 ("can't be cleaned: " ++ msg))).
Proof.
  intros Habs Hw Ha Hp Hr.
  destruct (aiof_write_lookup _ _ _ _ Hw) as [Hcwd _].
  assert (Habs1 : isabs (cwd w1) = true) by by rewrite Hcwd.
  destruct (clean_meta_engine_raises (path_join (cwd w1) (artifact_name r file))
              lw true sb policy (set_running_in WorkerProcess w1) p mtype e fs')
    as (w2 & Hg & _); [by apply worker_accessible|exact Hp|exact Hr|].
  rewrite (clean_result _ _ _ _ _ _ _ _ _ Hw (run_in_executor_run _ _ _ _ Hg)).
  split; [done|]. by intros msg ->.
Qed.

Lemma cache_delete_file_run (filename : string) (w : world) (d : bytes) (m : Z) :
  isabs (cwd w) = true ->
  lookup_path w filename = Some (File d m) ->
  mode_allows m R_OK = true ->
  cache_delete_file filename w
  = (Ok (Some (mkBytesIO d 0)),
     set_fs (delete (path_join (cwd w) filename) (fs w)) w).
Proof.
  intros Habs Hf Hm.
  unfold cache_delete_file, bind, os_path_abspath, aiof_read, os_remove. simpl.
  rewrite lookup_path_abspath, Hf, Hm by done. simpl.
  rewrite lookup_path_abspath, Hf by done. simpl.
  by rewrite BytesIO_capture, path_join_idem.
Qed.

(** X6.  When [remove_all] returns [False], [/clean/] answers with status
    400 and the detail [Failed to remove metadata]; nothing is copied or
    renamed, so the filesystem is left as the engine left it, less the
    artifact. *)
Theorem clean_reports_engine_refusal (file : UploadFile) (lw sb : bool)
    (policy : UnknownMemberPolicy) (r : Z) (w w1 : world) (p : parser)
    (mtype : option string) (fs' : gmap string node) :
  isabs (cwd w) = true ->
  aiof_write (artifact_name r file) (upload_body file) w = (Ok tt, w1) ->
  accessible w1 (artifact_name r file) (Z.lor R_OK W_OK) = true ->
  engine_get_parser libmat2 (fs w1) (path_join (cwd w1) (artifact_name r file))
    = Ok (Some p, mtype) ->
  engine_remove_all libmat2
    (set_sandbox sb (set_lightweight_cleaning lw (set_unknown_member_policy policy p)))
    (fs w1) = (Ok false, fs') ->
  fst (clean category_is_C libmat2 file lw policy sb r w)
  = Raise (HTTPException 400 "Failed to remove metadata")
  /\ fs (snd (clean category_is_C libmat2 file lw policy sb r w))
     = match fs' !! path_join (cwd w1) (artifact_name r file) with
       | Some (File _ _) => delete (path_join (cwd w1) (artifact_name r file)) fs'
       | _ => fs'
       end.
Proof.
  intros Habs Hw Ha Hp Hr.
  destruct (aiof_write_lookup _ _ _ _ Hw) as [Hcwd _].
  assert (Habs1 : isabs (cwd w1) = true) by by rewrite Hcwd.
  destruct (clean_meta_engine_false (path_join (cwd w1) (artifact_name r file))
              lw true sb policy (set_running_in WorkerProcess w1) p mtype fs')
    as (w2 & Hg & Hfs & Hc); [by apply worker_accessible|exact Hp|exact Hr|].
  rewrite (clean_result _ _ _ _ _ _ _ _ _ Hw (run_in_executor_run _ _ _ _ Hg)).
  split; [done|]. cbn [snd].
  rewrite clean_finally_fs by (cbn [cwd set_running_in]; by rewrite Hc).
  unfold lookup_path. cbn [fs cwd set_running_in]. by rewrite Hfs, Hc.
Qed.

(** X7.  When [remove_all] returns [True] but there is no file at the
    output path of the parser, the permission copy fails and [/clean/] lets
    the [FileNotFoundError] pass: the client receives the framework's 500,
    not a 400. *)
Theorem clean_fails_when_output_is_missing (file : UploadFile) (lw sb : bool)
    (policy : UnknownMemberPolicy) (r : Z) (w w1 : world) (p : parser)
    (mtype : option string) (fs' : gmap string node) (n : node) :
  isabs (cwd w) = true ->
  aiof_write (artifact_name r file) (upload_body file) w = (Ok tt, w1) ->
  accessible w1 (artifact_name r file) (Z.lor R_OK W_OK) = true ->
  engine_get_parser libmat2 (fs w1) (path_join (cwd w1) (artifact_name r file))
    = Ok (Some p, mtype) ->
  engine_remove_all libmat2
    (set_sandbox sb (set_lightweight_cleaning lw (set_unknown_member_policy policy p)))
    (fs w1) = (Ok true, fs') ->
  fs' !! path_join (cwd w1) (artifact_name r file) = Some n ->
  fs' !! path_join (cwd w1) (output_filename p) = None ->
  fst (clean category_is_C libmat2 file lw policy sb r w)
  = Raise (OSError FileNotFoundError (output_filename p))
  /\ client_status (fst (clean category_is_C libmat2 file lw policy sb r w)) = 500%Z.
Proof.
  intros Habs Hw Ha Hp Hr Hsrc Hout.
  destruct (aiof_write_lookup _ _ _ _ Hw) as [Hcwd _].
  assert (Habs1 : isabs (cwd w1) = true) by by rewrite Hcwd.
  destruct (clean_meta_output_missing (path_join (cwd w1) (artifact_name r file))
              lw true sb policy (set_running_in WorkerProcess w1) p mtype fs' n)
    as (w2 & Hg & _); [by apply worker_accessible|exact Hp|exact Hr| |exact Hout|].
  { cbn [cwd set_running_in]. by rewrite path_join_idem. }
  by rewrite (clean_result _ _ _ _ _ _ _ _ _ Hw (run_in_executor_run _ _ _ _ Hg)).
Qed.

(** X8.  A successful cleaning, end to end: when [remove_all] returns
    [True], having written the cleaned bytes to the output path and left a
    readable original, and the header that names the download can be encoded
    as latin-1, [/clean/] returns a stream that holds exactly the cleaned
    bytes from offset 0, of media type [application/octet-stream], with the
    download named after the client filename; afterwards neither the
    artifact nor the output file of the engine is left. *)
Theorem clean_streams_engine_output (file : UploadFile) (lw sb : bool)
    (policy : UnknownMemberPolicy) (r : Z) (w w1 : world) (p : parser)
    (mtype : option string) (fs1 : gmap string node) (d0 d1 : bytes) (m0 m1 : Z) :
  isabs (cwd w) = true ->
  aiof_write (artifact_name r file) (upload_body file) w = (Ok tt, w1) ->
  accessible w1 (artifact_name r file) (Z.lor R_OK W_OK) = true ->
  engine_get_parser libmat2 (fs w1) (path_join (cwd w1) (artifact_name r file))
    = Ok (Some p, mtype) ->
  engine_remove_all libmat2
    (set_sandbox sb (set_lightweight_cleaning lw (set_unknown_member_policy policy p)))
    (fs w1) = (Ok true, fs1) ->
  fs1 !! path_join (cwd w1) (artifact_name r file) = Some (File d0 m0) ->
  fs1 !! path_join (cwd w1) (output_filename p) = Some (File d1 m1) ->
  mode_allows (S_IMODE m0) R_OK = true ->
  headers_error (download_headers (upload_filename file)) = None ->
  exists wf : world,
    clean category_is_C libmat2 file lw policy sb r w
    = (Ok (StreamingResponse (mkBytesIO d1 0) "application/octet-stream"
             (download_headers (upload_filename file))), wf)
    /\ fs wf !! path_join (cwd w1) (artifact_name r file) = None
    /\ (path_join (cwd w1) (output_filename p)
        <> path_join (cwd w1) (artifact_name r file) ->
        fs wf !! path_join (cwd w1) (output_filename p) = None).
Proof.
  intros Habs Hw Ha Hp Hr Hsrc Hout Hm He.
  destruct (aiof_write_lookup _ _ _ _ Hw) as [Hcwd _].
  assert (Habs1 : isabs (cwd w1) = true) by by rewrite Hcwd.
  set (name := artifact_name r file) in *.
  set (a := path_join (cwd w1) name) in *.
  set (out := path_join (cwd w1) (output_filename p)) in *.
  assert (Ha' : path_join (cwd w1) a = a) by by apply path_join_idem.
  destruct (clean_meta_installed a lw sb policy (set_running_in WorkerProcess w1)
              p mtype fs1 d0 d1 m0 m1)
    as (w2 & Hg & Hfs & Hc);
    [by apply worker_accessible|exact Hp|exact Hr| |exact Hout|].
  { cbn [cwd set_running_in]. by rewrite Ha'. }
  cbn [cwd set_running_in] in Hfs, Hc. rewrite Ha' in Hfs. fold out in Hfs.
  set (w3 := set_running_in (running_in w1) w2).
  assert (Hl3 : lookup_path w3 name = Some (File d1 (S_IMODE m0))).
  { unfold lookup_path. cbn [fs cwd set_running_in w3]. rewrite Hfs, Hc.
    fold a. by rewrite lookup_insert_eq. }
  assert (Habs3 : isabs (cwd w3) = true) by (cbn [cwd set_running_in w3]; by rewrite Hc).
  rewrite (clean_result _ _ _ _ _ _ _ _ _ Hw (run_in_executor_run _ _ _ _ Hg)).
  fold name w3. rewrite (cache_delete_file_run name w3 _ _ Habs3 Hl3 Hm), He.
  eexists. split; [reflexivity|].
  rewrite clean_finally_fs by done.
  assert (Hgone : lookup_path (set_fs (delete (path_join (cwd w3) name) (fs w3)) w3) name
                  = None).
  { unfold lookup_path. cbn [fs cwd set_fs]. by rewrite lookup_delete_eq. }
  rewrite Hgone. cbn [fs cwd set_fs set_running_in w3]. rewrite Hfs, Hc. fold a.
  split.
  - by rewrite lookup_delete_eq.
  - intros Hne. by rewrite lookup_delete_ne, lookup_insert_ne, lookup_delete_eq.
Qed.

End Behaviour.

(** ** The handlers at sample requests *)

Lemma show_returns_engine_metadata_witness :
  fst (show no_C pdf_engine pdf_upload true sample_draw srv_world)
  = Ok (JSONResponse pdf_meta "text/plain").
Proof.
  eapply (show_returns_engine_metadata no_C pdf_engine pdf_upload true sample_draw
            srv_world); vm_compute; reflexivity.
Defined.

Lemma show_maps_engine_failure_witness :
  fst (show no_C (careless_engine (Ok true)) pdf_upload true sample_draw srv_world)
  = Raise (HTTPException 500 "Metadata cannot be extracted").
Proof.
  eapply (show_maps_engine_failure no_C (careless_engine (Ok true)) pdf_upload true
            sample_draw srv_world);
    first [vm_compute; reflexivity | intros; discriminate].
Defined.

Lemma show_fails_when_artifact_is_lost_witness :
  fst (show no_C losing_engine pdf_upload true sample_draw srv_world)
  = Raise (OSError FileNotFoundError (artifact_name sample_draw pdf_upload)).
Proof.
  eapply (show_fails_when_artifact_is_lost no_C losing_engine pdf_upload true
            sample_draw srv_world); vm_compute; reflexivity.
Defined.

Lemma resolution_error_is_400_witness :
  fst (show no_C failing_engine pdf_upload true sample_draw srv_world)
  = Raise (HTTPException 400 "something went wrong during processing: bad header")
  /\ fst (clean no_C failing_engine pdf_upload false ABORT true sample_draw srv_world)
     = Raise (HTTPException 400 "something went wrong during cleaning: bad header").
Proof.
  destruct (resolution_error_is_400 no_C failing_engine pdf_upload false true ABORT
              sample_draw srv_world
              (snd (aiof_write (artifact_name sample_draw pdf_upload)
                      (upload_body pdf_upload) srv_world))
              "bad header") as [Hs Hc];
    [vm_compute; reflexivity..|].
  split; [apply Hs|apply Hc]; vm_compute; reflexivity.
Defined.

Lemma clean_maps_engine_failure_witness :
  fst (clean no_C (careless_engine (Raise (RuntimeError "boom"))) pdf_upload false
         ABORT true sample_draw srv_world)
  = Raise (HTTPException 400 "can't be cleaned: boom").
Proof.
  eapply (clean_maps_engine_failure no_C (careless_engine (Raise (RuntimeError "boom")))
            pdf_upload false true ABORT sample_draw srv_world);
    vm_compute; reflexivity.
Defined.

Lemma clean_reports_engine_refusal_witness :
  fst (clean no_C (careless_engine (Ok false)) pdf_upload false ABORT true
         sample_draw srv_world)
  = Raise (HTTPException 400 "Failed to remove metadata")
  /\ fs (snd (clean no_C (careless_engine (Ok false)) pdf_upload false ABORT true
                sample_draw srv_world)) = srv_fs.
Proof.
  destruct (clean_reports_engine_refusal no_C (careless_engine (Ok false)) pdf_upload
              false true ABORT sample_draw srv_world
              (snd (aiof_write (artifact_name sample_draw pdf_upload)
                      (upload_body pdf_upload) srv_world))
              (pdf_parser "/srv/12345678-1234-4678-9234-567812345678a.pdf")
              (Some "application/pdf")
              (fs (snd (aiof_write (artifact_name sample_draw pdf_upload)
                          (upload_body pdf_upload) srv_world))))
    as [Hr Hf]; [vm_compute; reflexivity..|].
  split; [exact Hr|]. rewrite Hf. vm_compute. reflexivity.
Defined.

Lemma clean_fails_when_output_is_missing_witness :
  client_status
    (fst (clean no_C (careless_engine (Ok true)) pdf_upload false ABORT true
            sample_draw srv_world)) = 500%Z.
Proof.
  eapply (clean_fails_when_output_is_missing no_C (careless_engine (Ok true))
            pdf_upload false true ABORT sample_draw srv_world);
    vm_compute; reflexivity.
Defined.

Lemma clean_streams_engine_output_witness :
  exists wf : world,
    clean no_C pdf_engine pdf_upload false ABORT true sample_draw srv_world
    = (Ok (StreamingResponse (mkBytesIO (upload_body pdf_upload) 0)
             "application/octet-stream" (download_headers "a.pdf")), wf)
    /\ fs wf !! "/srv/12345678-1234-4678-9234-567812345678a.pdf" = None
    /\ fs wf !! "/srv/12345678-1234-4678-9234-567812345678a.pdf.cleaned" = None.
Proof.
  destruct (clean_streams_engine_output no_C pdf_engine pdf_upload false true ABORT
              sample_draw srv_world
              (snd (aiof_write (artifact_name sample_draw pdf_upload)
                      (upload_body pdf_upload) srv_world))
              (pdf_parser "/srv/12345678-1234-4678-9234-567812345678a.pdf")
              (Some "application/pdf")
              (<[ "/srv/12345678-1234-4678-9234-567812345678a.pdf.cleaned"
                  := File (upload_body pdf_upload) 384 ]>
                 (fs (snd (aiof_write (artifact_name sample_draw pdf_upload)
                             (upload_body pdf_upload) srv_world))))
              (upload_body pdf_upload) (upload_body pdf_upload) 420 384)
    as (wf & Hrun & Hsrc & Hout); [vm_compute; reflexivity..|].
  exists wf. split; [exact Hrun|]. split; [exact Hsrc|].
  apply Hout. vm_compute. discriminate.
Defined.

(** * The probe and the helpers *)

(** ** The health probe *)

#[local] Instance key_le_total : Total key_le.
Proof. intros a b. unfold key_le. apply String.leb_total. Qed.

Lemma for_each_prints (print_line : string * dependency -> string)
    (l : list (string * dependency)) (w : world) :
  for_each l (fun kv => print (print_line kv)) w
  = (Ok tt,
     World (fs w) (cwd w) (umask w) (running_in w)
       (trace w ++ map (fun kv => EvPrint (print_line kv)) l)).
Proof.
  revert w. induction l as [|kv l IH]; intros w.
  - simpl. rewrite app_nil_r. by destruct w.
  - cbn [for_each map]. unfold bind, print. cbv beta iota.
    rewrite IH. cbn [fs cwd umask running_in trace log].
    by rewrite <- app_assoc.
Qed.

(** X9.  [get_health] returns ["OK"] whatever the dependency report says,
    also when a required dependency is missing; it prints one line for each
    dependency, in ascending order of the names, and leaves the filesystem
    alone. *)
Theorem get_health_always_ok (category_is_C : ascii -> bool)
    (check_dependencies : gmap string dependency) (w : world) :
  fst (get_health category_is_C check_dependencies w) = Ok "OK"
  /\ fs (snd (get_health category_is_C check_dependencies w)) = fs w
  /\ new_events w (snd (get_health category_is_C check_dependencies w))
     = map (fun kv =>
              EvPrint (string_filter (fun ch => negb (category_is_C ch))
                         (health_line kv.1 kv.2)))
         (sorted_items check_dependencies)
  /\ Sorted key_le (sorted_items check_dependencies)
  /\ sorted_items check_dependencies ≡ₚ map_to_list check_dependencies.
Proof.
  unfold get_health, bind, __print_without_chars.
  rewrite (for_each_prints
             (fun kv => string_filter (fun ch => negb (category_is_C ch))
                          (health_line kv.1 kv.2))).
  cbv beta iota. unfold ret, new_events. cbn [fst snd fs trace].
  rewrite drop_app_length.
  split_and!; try done.
  - apply Sorted_merge_sort, _.
  - apply merge_sort_Permutation.
Qed.

(** ** Printing without control characters *)

Lemma string_filter_clean (f : ascii -> bool) (s : string) :
  string_exists (fun ch => negb (f ch)) (string_filter f s) = false.
Proof.
  induction s as [|ch s IH]; [done|]. simpl.
  destruct (f ch) eqn:E; [|done]. simpl. by rewrite E, IH.
Qed.

Lemma string_filter_id (f : ascii -> bool) (s : string) :
  string_exists (fun ch => negb (f ch)) s = false -> string_filter f s = s.
Proof.
  induction s as [|ch s IH]; [done|]. simpl. intros H.
  apply orb_false_elim in H as [Hc Hs].
  apply negb_false_iff in Hc. by rewrite Hc, (IH Hs).
Qed.

(** X10.  [__print_without_chars] prints exactly one line; the line holds no
    character of a category [C...], and it is the given string when that
    string holds none. *)
Theorem print_without_chars_strips (category_is_C : ascii -> bool) (s : string)
    (w : world) :
  exists line,
    __print_without_chars category_is_C s w = (Ok tt, log (EvPrint line) w)
    /\ string_exists category_is_C line = false
    /\ (string_exists category_is_C s = false -> line = s).
Proof.
  eexists. split; [reflexivity|]. split.
  - rewrite <- (string_filter_clean (fun ch => negb (category_is_C ch)) s) at 1.
    induction (string_filter _ s) as [|ch t IH]; [done|].
    simpl. by rewrite negb_involutive, IH.
  - intros H. apply string_filter_id.
    induction s as [|ch t IH]; [done|]. simpl in *.
    apply orb_false_elim in H as [Hc Hs]. by rewrite negb_involutive, Hc, (IH Hs).
Qed.

(** ** The accessibility check as a guard *)

Lemma new_events_same (w : world) : new_events w w = [].
Proof. unfold new_events. by rewrite drop_all. Qed.

(** X11.  [__check_file] changes neither the filesystem nor the working
    directory; it prints nothing when the file passes and exactly one line
    when it does not. *)
Theorem check_file_only_logs (category_is_C : ascii -> bool) (filename : string)
    (mode : Z) (w : world) :
  same_files w (snd (__check_file category_is_C filename mode w))
  /\ new_events w (snd (__check_file category_is_C filename mode w))
     = (if accessible w filename mode then []
        else [EvPrint
                (string_filter (fun ch => negb (category_is_C ch))
                   (if negb (path_exists w filename) then
                      "[-] " ++ filename ++ " doesn't exist."
                    else if negb (path_isfile w filename) then
                      "[-] " ++ filename ++ " is not a regular file."
                    else
                      "[-] " ++ filename ++ " is not "
                        ++ str_join "nor "
                             ((if negb (Z.land mode R_OK =? 0)%Z
                               then chars "readable" else [])
                                ++ (if negb (Z.land mode W_OK =? 0)%Z
                                    then chars "writeable" else []))%list
                        ++ "."))]).
Proof.
  unfold accessible, __check_file, bind, os_path_exists, os_path_isfile, os_access,
    __print_without_chars, print, same_files.
  cbv beta iota.
  destruct (path_exists w filename);
    cbn [negb andb]; cbv beta iota zeta; unfold ret; cbn [snd];
    [|split; [done|by rewrite new_events_log]].
  destruct (path_isfile w filename);
    cbn [negb andb]; cbv beta iota zeta; unfold ret; cbn [snd];
    [|split; [done|by rewrite new_events_log]].
  destruct (path_access w filename mode);
    cbn [negb andb]; cbv beta iota zeta; unfold ret; cbn [snd].
  - split; [done|]. apply new_events_same.
  - split; [done|]. rewrite new_events_log.
    by destruct (negb (Z.land mode R_OK =? 0)%Z), (negb (Z.land mode W_OK =? 0)%Z).
Qed.

Lemma string_filter_keeps (category_is_C : ascii -> bool) (s : string) :
  string_exists category_is_C s = false ->
  string_filter (fun ch => negb (category_is_C ch)) s = s.
Proof.
  intros H. apply string_filter_id.
  induction s as [|ch t IH]; [done|]. simpl in *.
  apply orb_false_elim in H as [Hc Hs]. by rewrite negb_involutive, Hc, (IH Hs).
Qed.

(** X12.  The reason of an access failure is built by appending strings to a
    list, which appends their characters: for the read-and-write check of
    the clean flow the line printed for an existing regular file is the one
    below, with [nor ] between all the characters of [readable] and
    [writeable], whatever the classification of characters, as long as it
    puts no character of the line in a category [C...]. *)
Theorem check_file_access_message (category_is_C : ascii -> bool)
    (filename : string) (w : world) :
  path_exists w filename = true ->
  path_isfile w filename = true ->
  path_access w filename (Z.lor R_OK W_OK) = false ->
  string_exists category_is_C
    ("[-] " ++ filename
       ++ " is not rnor enor anor dnor anor bnor lnor enor wnor rnor inor tnor enor anor bnor lnor e.")
  = false ->
  __check_file category_is_C filename (Z.lor R_OK W_OK) w
  = (Ok false,
     log (EvPrint
            ("[-] " ++ filename
               ++ " is not rnor enor anor dnor anor bnor lnor enor wnor rnor inor tnor enor anor bnor lnor e."))
       w).
Proof.
  intros He Hf Ha Hc.
  unfold __check_file, bind, os_path_exists, os_path_isfile, os_access,
    __print_without_chars, print.
  cbv beta iota. rewrite He. cbn [negb]. cbv beta iota.
  rewrite Hf. cbn [negb]. cbv beta iota. rewrite Ha. cbn [negb]. cbv beta iota zeta.
  change (negb (Z.land (Z.lor R_OK W_OK) R_OK =? 0)%Z) with true.
  change (negb (Z.land (Z.lor R_OK W_OK) W_OK =? 0)%Z) with true.
  cbv iota. unfold ret.
  rewrite (string_filter_keeps category_is_C); [reflexivity|exact Hc].
Qed.

(** ** What leaves the handlers *)

Lemma string_exists_app (f : ascii -> bool) (s t : string) :
  string_exists f (s ++ t) = string_exists f s || string_exists f t.
Proof.
  induction s as [|ch s IH]; [done|].
  change (f ch || string_exists f (s ++ t)
          = f ch || string_exists f s || string_exists f t).
  by rewrite IH, orb_assoc.
Qed.

Lemma hex_digit_not_nul (d : Z) : (0 <= d < 16)%Z -> is_nul (hex_digit d) = false.
Proof.
  intros Hd.
  assert (d = 0 \/ d = 1 \/ d = 2 \/ d = 3 \/ d = 4 \/ d = 5 \/ d = 6 \/ d = 7
          \/ d = 8 \/ d = 9 \/ d = 10 \/ d = 11 \/ d = 12 \/ d = 13 \/ d = 14
          \/ d = 15)%Z as C by lia.
  clear Hd. repeat (destruct C as [->|C]); subst; reflexivity.
Qed.

Lemma hex_not_nul (n : nat) (v : Z) : string_exists is_nul (hex n v) = false.
Proof.
  induction n as [|n IH]; [done|].
  change (is_nul (hex_digit (Z.land (Z.shiftr v (4 * Z.of_nat n)) 15))
            || string_exists is_nul (hex n v) = false).
  rewrite IH, hex_digit_not_nul; [done|].
  change 15%Z with (Z.ones 4). rewrite Z.land_ones by lia.
  apply Z.mod_pos_bound. lia.
Qed.

(** The identifier holds no NUL character, so the name of the artifact holds
    one only if the client's filename does. *)
Lemma artifact_name_nul (r : Z) (file : UploadFile) :
  string_exists is_nul (artifact_name r file)
  = string_exists is_nul (upload_filename file).
Proof.
  unfold artifact_name, uuid_str.
  rewrite !string_exists_app, !hex_not_nul. reflexivity.
Qed.

Lemma aiof_write_raises (p : string) (d : bytes) (w w' : world) (e : exn) :
  aiof_write p d w = (Raise e, w') ->
  (exists k f, e = OSError k f)
  \/ (e = ValueError "embedded null byte" /\ string_exists is_nul p = true).
Proof.
  unfold aiof_write. cbv zeta.
  destruct (string_exists is_nul p); [intros [= <- _]; by right|].
  left. revert H.
  destruct (fs w !! path_join (cwd w) p) as [[d0 m0|m0]|].
  - destruct (mode_allows m0 W_OK); intros [= <- _]; by eexists _, _.
  - intros [= <- _]. by eexists _, _.
  - destruct (fs w !! os_path_dirname (path_join (cwd w) p)) as [[?|?]|];
      intros [= <- _]; by eexists _, _.
Qed.

Lemma aiof_write_nul (p : string) (d : bytes) (w : world) :
  string_exists is_nul p = true ->
  aiof_write p d w = (Raise (ValueError "embedded null byte"), w).
Proof. intros H. unfold aiof_write. cbv zeta. by rewrite H. Qed.

(** X13.  Whatever the engine does, no [RuntimeError] leaves [/clean/], and
    a [ValueError] leaves [/clean/] only as the [embedded null byte] of
    [open], for a client filename that holds a NUL character; whatever
    leaves [/show/] is an [HTTPException], an [OSError] of the handler's own
    file operations, an exception outside [Exception], or that same
    [ValueError] of [open].  For a client filename that holds a NUL
    character both handlers do raise it, before anything is stored, printed
    or asked of the engine. *)
Theorem handlers_contain_engine_errors (category_is_C : ascii -> bool)
    (libmat2 : engine) (file : UploadFile) (lw sb : bool)
    (policy : UnknownMemberPolicy) (r : Z) (w : world) :
  (forall msg,
     (fst (clean category_is_C libmat2 file lw policy sb r w) = Raise (ValueError msg) ->
      msg = "embedded null byte"
      /\ string_exists is_nul (upload_filename file) = true)
     /\ fst (clean category_is_C libmat2 file lw policy sb r w)
        <> Raise (RuntimeError msg))
  /\ (forall e,
        fst (show category_is_C libmat2 file sb r w) = Raise e ->
        (exists s d, e = HTTPException s d) \/ (exists k f, e = OSError k f)
        \/ e = CancelledError
        \/ (e = ValueError "embedded null byte"
            /\ string_exists is_nul (upload_filename file) = true))
  /\ (string_exists is_nul (upload_filename file) = true ->
      clean category_is_C libmat2 file lw policy sb r w
      = (Raise (ValueError "embedded null byte"), w)
      /\ show category_is_C libmat2 file sb r w
         = (Raise (ValueError "embedded null byte"), w)).
Proof.
  assert (Hnul : string_exists is_nul (upload_filename file) = true ->
                 clean category_is_C libmat2 file lw policy sb r w
                 = (Raise (ValueError "embedded null byte"), w)
                 /\ show category_is_C libmat2 file sb r w
                    = (Raise (ValueError "embedded null byte"), w)).
  { intros H. rewrite <- (artifact_name_nul r) in H.
    unfold clean, show, bind.
    by rewrite (aiof_write_nul _ (upload_body file) w H). }
  split; [|split; [|exact Hnul]]; clear Hnul; revert w.
  all: intros w;
    destruct (aiof_write (artifact_name r file) (upload_body file) w)
      as [[[]|e0] w1] eqn:Hw.
  - intros msg.
    destruct (run_in_executor
                (clean_meta category_is_C libmat2
                   (path_join (cwd w1) (artifact_name r file)) lw true sb policy) w1)
      as [res w2] eqn:Hc.
    rewrite (clean_result _ _ _ _ _ _ _ _ _ _ _ Hw Hc).
    destruct res as [[|]|e].
    + destruct (cache_delete_file (artifact_name r file) w2) as [[[d|]|e] w3];
        cbn [fst]; try done.
      * by destruct (headers_error (download_headers (upload_filename file))).
      * by destruct e.
    + done.
    + cbn [fst]. by destruct e.
  - intros msg. unfold clean, bind. rewrite Hw. cbn [fst].
    destruct (aiof_write_raises _ _ _ _ _ Hw) as [(k & f & ->)|[-> Hn]]; [done|].
    rewrite artifact_name_nul in Hn. split; [|done]. by intros [= <-].
  - intros e.
    destruct (get_meta category_is_C libmat2
                (path_join (cwd w1) (artifact_name r file)) sb
                (log (EvPrint (path_join (cwd w1) (artifact_name r file))) w1))
      as [res w2] eqn:Hg.
    rewrite (show_result _ _ _ _ _ _ _ _ _ Hw Hg).
    destruct (lookup_path w2 (artifact_name r file)) as [[d m|m]|].
    + destruct res as [md|e1]; [done|]. intros [= <-].
      destruct e1; cbn [show_raises]; eauto.
    + intros [= <-]. eauto.
    + intros [= <-]. eauto.
  - intros e. unfold show, bind. rewrite Hw. intros [= <-].
    destruct (aiof_write_raises _ _ _ _ _ Hw) as [(k & f & ->)|[-> Hn]]; [eauto|].
    rewrite artifact_name_nul in Hn. eauto 6.
Qed.

(** ** A request leaves no file behind *)

Lemma same_files_refl (w : world) : same_files w w.
Proof. done. Qed.

Lemma same_files_trans (a b c : world) :
  same_files a b -> same_files b c -> same_files a c.
Proof. intros [H1 H2] [H3 H4]. split; congruence. Qed.

Lemma get_meta_same_files (category_is_C : ascii -> bool) (libmat2 : engine)
    (filename : string) (sb : bool) :
  (forall p f, snd (engine_get_meta libmat2 p f) = f) ->
  respects same_files (get_meta category_is_C libmat2 filename sb).
Proof.
  intros Hro w. unfold get_meta, __check_file, parser_factory_get_parser,
    __print_without_chars, p_get_meta, os_path_exists, os_path_isfile, os_access,
    print, try_except, bind, raise, ret.
  cbv beta iota.
  destruct (path_exists w filename); cbn [negb]; cbv beta iota zeta; [|done].
  destruct (path_isfile w filename); cbn [negb]; cbv beta iota zeta; [|done].
  destruct (path_access w filename R_OK); cbn [negb]; cbv beta iota zeta; [|done].
  destruct (engine_get_parser libmat2 (fs w) filename) as [[[p|] mtype]|e];
    cbv beta iota zeta.
  - cbn [fs log]. specialize (Hro (set_sandbox sb p) (fs w)).
    destruct (engine_get_meta libmat2 (set_sandbox sb p) (fs w)) as [res fs'].
    cbn [snd] in *. subst fs'. done.
  - done.
  - by destruct e.
Qed.

(** X14.  With an engine whose [get_meta] only reads, a [/show/] request
    whose artifact path was free leaves the filesystem exactly as it found
    it, whether it answers with the metadata or with an error. *)
Theorem show_leaves_no_file_behind (category_is_C : ascii -> bool)
    (libmat2 : engine) (file : UploadFile) (sb : bool) (r : Z) (w : world) :
  (forall p f, snd (engine_get_meta libmat2 p f) = f) ->
  lookup_path w (artifact_name r file) = None ->
  fst (aiof_write (artifact_name r file) (upload_body file) w) = Ok tt ->
  fs (snd (show category_is_C libmat2 file sb r w)) = fs w.
Proof.
  intros Hro Hfree Hw. apply run_ok in Hw.
  destruct (aiof_write_ok _ _ _ _ Hw) as [m Hw1].
  set (name := artifact_name r file) in *.
  set (w1 := snd (aiof_write name (upload_body file) w)) in *.
  set (a := path_join (cwd w1) name).
  destruct (get_meta category_is_C libmat2 a sb (log (EvPrint a) w1))
    as [res w2] eqn:Hg.
  pose proof (get_meta_same_files category_is_C libmat2 a sb Hro (log (EvPrint a) w1))
    as [Hfs Hcwd].
  rewrite Hg in Hfs, Hcwd. cbn [snd fs cwd log] in Hfs, Hcwd.
  assert (Hl : lookup_path w2 name = Some (File (upload_body file) m)).
  { unfold lookup_path. rewrite Hfs, Hcwd, Hw1. cbn [fs cwd set_fs].
    apply lookup_insert_eq. }
  unfold show. fold name. rewrite (bind_ok _ _ _ _ _ Hw).
  unfold try_finally, try_except, bind, os_path_abspath, print. cbv beta iota.
  fold a. change (path_join (cwd (log (EvPrint a) w1)) name) with a.
  rewrite Hg. unfold os_remove.
  assert (Hdel : delete (path_join (cwd w2) name) (fs w2) = fs w).
  { rewrite Hfs, Hcwd, Hw1. cbn [fs cwd set_fs]. by apply delete_insert_id. }
  destruct res as [md|e].
  - unfold ret. rewrite Hl. cbn [snd fs set_fs]. exact Hdel.
  - destruct e; unfold is_Exception, raise, __print_without_chars, print;
      cbv beta iota;
      repeat match goal with
             | |- context [lookup_path (log ?ev w2) name] =>
                 change (lookup_path (log ev w2) name) with (lookup_path w2 name)
             end;
      rewrite Hl; cbn [snd fs set_fs cwd log]; exact Hdel.
Qed.

(** ** The name of the download *)

Lemma string_app_nil_r (p : string) : p ++ EmptyString = p.
Proof.
  induction p as [|ch p IH]; [done|].
  change (String ch (p ++ EmptyString) = String ch p). by rewrite IH.
Qed.

Lemma substring_all (p : string) : substring 0 (String.length p) p = p.
Proof. induction p as [|ch p IH]; [done|]. simpl. by rewrite IH. Qed.

Lemma substring_split (n : nat) (p : string) :
  substring 0 n p ++ substring n (String.length p - n) p = p.
Proof.
  revert p. induction n as [|n IH]; intros p.
  - rewrite Nat.sub_0_r, substring_all. by destruct p.
  - destruct p as [|ch p]; [done|].
    change (String ch (substring 0 n p ++ substring n (String.length p - n) p)
            = String ch p).
    by rewrite IH.
Qed.

Lemma rfind_suffix (c : ascii) (p : string) (i : nat) :
  rfind c p = Some i ->
  exists t, substring i (String.length p - i) p = String c t.
Proof.
  revert i. induction p as [|a p IH]; intros i; [done|]. simpl.
  destruct (rfind c p) as [j|] eqn:E.
  - intros [= <-]. destruct (IH j eq_refl) as [t Ht]. by exists t.
  - destruct (Ascii.eqb a c) eqn:Hac; [|done]. intros [= <-].
    apply Ascii.eqb_eq in Hac as ->. exists p. simpl. by rewrite substring_all.
Qed.

(** X15.  [os.path.splitext], as [/clean/] uses it to name the download: the
    two parts put together give the filename back, and the extension is
    empty or begins with a period. *)
Theorem splitext_round_trip (p : string) :
  fst (os_path_splitext p) ++ snd (os_path_splitext p) = p
  /\ (snd (os_path_splitext p) = EmptyString
      \/ exists t, snd (os_path_splitext p) = String "."%char t).
Proof.
  unfold os_path_splitext.
  destruct (rfind "."%char p) as [dotIndex|] eqn:Hdot.
  - match goal with
    | |- context [if ?b then _ else _] => destruct b
    end; cbn [fst snd].
    + split; [apply substring_split|]. right. by apply rfind_suffix.
    + split; [apply string_app_nil_r|by left].
  - cbn [fst snd]. split; [apply string_app_nil_r|by left].
Qed.

(** ** Distinct requests, distinct artifacts *)

Lemma hex_length (n : nat) (v : Z) : String.length (hex n v) = n.
Proof. induction n as [|n IH]; [done|]. simpl. by rewrite IH. Qed.

Lemma hex_digit_inj (a b : Z) :
  (0 <= a < 16)%Z -> (0 <= b < 16)%Z -> hex_digit a = hex_digit b -> a = b.
Proof.
  intros Ha Hb H.
  assert (a = 0 \/ a = 1 \/ a = 2 \/ a = 3 \/ a = 4 \/ a = 5 \/ a = 6 \/ a = 7
          \/ a = 8 \/ a = 9 \/ a = 10 \/ a = 11 \/ a = 12 \/ a = 13 \/ a = 14
          \/ a = 15)%Z as Ca by lia.
  assert (b = 0 \/ b = 1 \/ b = 2 \/ b = 3 \/ b = 4 \/ b = 5 \/ b = 6 \/ b = 7
          \/ b = 8 \/ b = 9 \/ b = 10 \/ b = 11 \/ b = 12 \/ b = 13 \/ b = 14
          \/ b = 15)%Z as Cb by lia.
  clear Ha Hb.
  repeat (destruct Ca as [->|Ca]);
    repeat (destruct Cb as [->|Cb]); subst;
    first [reflexivity | discriminate H].
Qed.

Lemma nibble (v : Z) (k : nat) :
  Z.land (Z.shiftr v (4 * Z.of_nat k)) 15 = ((v / 2 ^ (4 * Z.of_nat k)) mod 16)%Z.
Proof.
  change 15%Z with (Z.ones 4). rewrite Z.land_ones by lia.
  by rewrite Z.shiftr_div_pow2 by lia.
Qed.

(** The printed digits determine the value up to the bits printed. *)
Lemma hex_inj (n : nat) (a b : Z) :
  hex n a = hex n b ->
  (a mod 2 ^ (4 * Z.of_nat n) = b mod 2 ^ (4 * Z.of_nat n))%Z.
Proof.
  induction n as [|n IH]; intros H.
  - by rewrite !Z.mod_1_r.
  - cbn [hex] in H. injection H as Hd Ht. specialize (IH Ht).
    rewrite !nibble in Hd.
    apply hex_digit_inj in Hd; [|by apply Z.mod_pos_bound..].
    replace (4 * Z.of_nat (S n))%Z with (4 * Z.of_nat n + 4)%Z by lia.
    rewrite Z.pow_add_r by lia. change (2 ^ 4)%Z with 16%Z.
    assert (Hp : (0 < 2 ^ (4 * Z.of_nat n))%Z) by (apply Z.pow_pos_nonneg; lia).
    rewrite !Z.rem_mul_r by lia. by rewrite IH, Hd.
Qed.

Lemma string_app_inj (a a' b b' : string) :
  String.length a = String.length a' -> a ++ b = a' ++ b' -> a = a' /\ b = b'.
Proof.
  revert a'. induction a as [|ch a IH]; intros [|ch' a'] Hl H; try done.
  change (String ch (a ++ b) = String ch' (a' ++ b')) in H.
  injection H as -> H. simpl in Hl. injection Hl as Hl.
  destruct (IH a' Hl H) as [-> ->]. done.
Qed.

Lemma uuid_str_length (i : Z) : String.length (uuid_str i) = 36.
Proof.
  unfold uuid_str.
  assert (Hl : forall a b, String.length (a ++ b) = String.length a + String.length b).
  { intros a b. induction a as [|ch a IH]; [done|].
    change (S (String.length (a ++ b)) = S (String.length a + String.length b)).
    by rewrite IH. }
  rewrite !Hl, !hex_length. reflexivity.
Qed.

Lemma uuid_str_inj (i j : Z) :
  (0 <= i < 2 ^ 128)%Z -> (0 <= j < 2 ^ 128)%Z -> uuid_str i = uuid_str j -> i = j.
Proof.
  intros Hi Hj H. unfold uuid_str in H.
  apply string_app_inj in H as [H1 H]; [|by rewrite !hex_length].
  apply (string_app_inj "-" "-") in H as [_ H]; [|done].
  apply string_app_inj in H as [H2 H]; [|by rewrite !hex_length].
  apply (string_app_inj "-" "-") in H as [_ H]; [|done].
  apply string_app_inj in H as [H3 H]; [|by rewrite !hex_length].
  apply (string_app_inj "-" "-") in H as [_ H]; [|done].
  apply string_app_inj in H as [H4 H]; [|by rewrite !hex_length].
  apply (string_app_inj "-" "-") in H as [_ H5]; [|done].
  apply hex_inj in H1, H2, H3, H4, H5.
  rewrite !Z.shiftr_div_pow2 in * by lia.
  change (2 ^ (4 * Z.of_nat 8))%Z with 4294967296%Z in H1.
  change (2 ^ (4 * Z.of_nat 4))%Z with 65536%Z in H2, H3, H4.
  change (2 ^ (4 * Z.of_nat 12))%Z with 281474976710656%Z in H5.
  change (2 ^ 96)%Z with 79228162514264337593543950336%Z in H1.
  change (2 ^ 80)%Z with 1208925819614629174706176%Z in H2.
  change (2 ^ 64)%Z with 18446744073709551616%Z in H3.
  change (2 ^ 48)%Z with 281474976710656%Z in H4.
  change (2 ^ 128)%Z with 340282366920938463463374607431768211456%Z in Hi, Hj.
  Z.div_mod_to_equations. lia.
Qed.

Lemma uuid4_int_range (r : Z) : (0 <= uuid4_int r < 2 ^ 128)%Z.
Proof.
  assert (H : Z.land (uuid4_int r) (Z.ones 128) = uuid4_int r).
  { apply Z.bits_inj'. intros n Hn. rewrite Z.land_spec.
    destruct (Z.lt_ge_cases n 128) as [Hlt|Hge].
    - rewrite Z.ones_spec_low by lia. apply andb_true_r.
    - rewrite Z.ones_spec_high by lia. rewrite andb_false_r.
      unfold uuid4_int. cbv zeta.
      rewrite Z.lor_spec, Z.ldiff_spec, Z.lor_spec, Z.ldiff_spec, Z.land_spec.
      rewrite Z.ones_spec_high by lia.
      rewrite (Z.bits_above_log2 (Z.shiftl 32768 48) n),
        (Z.bits_above_log2 (Z.shiftl 4 76) n).
      + by rewrite !andb_false_r.
      + by vm_compute.
      + change (Z.log2 (Z.shiftl 4 76)) with 78%Z. lia.
      + by vm_compute.
      + change (Z.log2 (Z.shiftl 32768 48)) with 63%Z. lia. }
  rewrite <- H, Z.land_ones by lia. apply Z.mod_pos_bound. lia.
Qed.

(** X16.  Two requests get the same artifact name exactly when their UUIDs
    and their client filenames are both the same: requests with different
    UUIDs never share a path, whatever the filenames are. *)
Theorem artifact_names_meet_only_on_equal_uuid (r1 r2 : Z) (f1 f2 : UploadFile) :
  artifact_name r1 f1 = artifact_name r2 f2
  <-> uuid4_int r1 = uuid4_int r2 /\ upload_filename f1 = upload_filename f2.
Proof.
  unfold artifact_name. split.
  - intros H. apply string_app_inj in H as [Hu Hf];
      [|by rewrite !uuid_str_length].
    split; [|done]. apply uuid_str_inj; [apply uuid4_int_range..|done].
  - by intros [-> ->].
Qed.

(** ** The helpers at sample inputs *)

Lemma check_file_access_message_witness :
  __check_file no_C "a.pdf" (Z.lor R_OK W_OK)
    (World (<[ "/srv/a.pdf" := File [] 292 ]> srv_fs) "/srv" 18 RequestThread [])
  = (Ok false,
     log (EvPrint
            ("[-] " ++ "a.pdf"
               ++ " is not rnor enor anor dnor anor bnor lnor enor wnor rnor inor tnor enor anor bnor lnor e."))
       (World (<[ "/srv/a.pdf" := File [] 292 ]> srv_fs) "/srv" 18 RequestThread [])).
Proof.
  apply (check_file_access_message no_C "a.pdf"
           (World (<[ "/srv/a.pdf" := File [] 292 ]> srv_fs) "/srv" 18 RequestThread []));
    vm_compute; reflexivity.
Defined.

Lemma handlers_contain_engine_errors_witness :
  clean no_C pdf_engine nul_upload false ABORT true sample_draw srv_world
  = (Raise (ValueError "embedded null byte"), srv_world)
  /\ show no_C pdf_engine nul_upload true sample_draw srv_world
     = (Raise (ValueError "embedded null byte"), srv_world).
Proof.
  destruct (handlers_contain_engine_errors no_C pdf_engine nul_upload false true ABORT
              sample_draw srv_world) as (_ & _ & H).
  apply H. vm_compute. reflexivity.
Defined.

Lemma show_leaves_no_file_behind_witness :
  fs (snd (show no_C pdf_engine pdf_upload true sample_draw srv_world)) = srv_fs.
Proof.
  apply (show_leaves_no_file_behind no_C pdf_engine pdf_upload true sample_draw
           srv_world).
  - intros p f. reflexivity.
  - vm_compute. reflexivity.
  - vm_compute. reflexivity.
Defined.
